(** * Shortform-Signals: metrics derivation and aggregation engine

    A shallow embedding of [data_loader.py] (the derived-metric step) and of
    [analysis.py] (class [ShortformAnalyzer]).

    The program is written against pandas, numpy and scikit-learn.  Their
    operations are embedded here with the behaviour of the release line the
    program targets (pandas 1.x/2.x, scikit-learn >= 1.2):

    - a float64 cell is a value of [fnum]: a finite number, one of the two
      infinities, or NaN.  Finite numbers are exact rationals, so rounding
      error of the hardware is abstracted; the special values follow
      IEEE 754 (x/0 is an infinity, 0/0 is NaN).  The negative zero is not
      represented: a zero divisor is the positive zero.
    - a missing value (null) in a numeric column is NaN; in a string column
      it is [None].
    - the square root of numpy is a parameter ([fsqrt]) of the sections that
      need it.
    - where pandas sorts with numpy's default sort, ties keep their original
      relative order. *)

From Stdlib Require Import String Ascii DecimalString.
From Stdlib Require Import QArith ZArith List Bool Lia Lqa.
From Stdlib Require Import Qround Qabs Permutation Sorted.
Import ListNotations.

Local Open Scope Q_scope.

(* ================================================================== *)
(** * Numeric cells                                                    *)
(* ================================================================== *)

Inductive fnum : Type :=
| Fin (q : Q)
| PInf
| NInf
| NaN.

Definition Qltb (a b : Q) : bool := negb (Qle_bool b a).

Definition isna (x : fnum) : bool :=
  match x with NaN => true | _ => false end.

Definition notna (x : fnum) : bool := negb (isna x).

(** numpy.isfinite *)
Definition isfinite (x : fnum) : bool :=
  match x with Fin _ => true | _ => false end.

Definition fneg (x : fnum) : fnum :=
  match x with
  | Fin q => Fin (- q)
  | PInf => NInf
  | NInf => PInf
  | NaN => NaN
  end.

Definition fadd (x y : fnum) : fnum :=
  match x, y with
  | NaN, _ | _, NaN => NaN
  | Fin a, Fin b => Fin (a + b)
  | PInf, NInf | NInf, PInf => NaN
  | PInf, _ | _, PInf => PInf
  | NInf, _ | _, NInf => NInf
  end.

Definition fsub (x y : fnum) : fnum := fadd x (fneg y).

(** The infinity carrying the sign of [q]; NaN when [q] is zero. *)
Definition inf_of_sign (q : Q) : fnum :=
  match q ?= 0 with
  | Gt => PInf
  | Lt => NInf
  | Eq => NaN
  end.

Definition fmul (x y : fnum) : fnum :=
  match x, y with
  | NaN, _ | _, NaN => NaN
  | Fin a, Fin b => Fin (a * b)
  | PInf, Fin b | Fin b, PInf => inf_of_sign b
  | NInf, Fin b | Fin b, NInf => inf_of_sign (- b)
  | PInf, PInf | NInf, NInf => PInf
  | PInf, NInf | NInf, PInf => NInf
  end.

(** True division of numpy: a zero divisor gives an infinity of the sign of
    the dividend, and 0/0 gives NaN; nothing is raised. *)
Definition fdiv (x y : fnum) : fnum :=
  match x, y with
  | NaN, _ | _, NaN => NaN
  | Fin a, Fin b => if Qeq_bool b 0 then inf_of_sign a else Fin (a / b)
  | Fin _, PInf | Fin _, NInf => Fin 0
  | PInf, Fin b => if Qltb b 0 then NInf else PInf
  | NInf, Fin b => if Qltb b 0 then PInf else NInf
  | _, _ => NaN
  end.

(** Order used by the sorts and the arg-max: defined on non-NaN cells. *)
Definition fleb (x y : fnum) : bool :=
  match x, y with
  | NaN, _ | _, NaN => false
  | NInf, _ => true
  | _, PInf => true
  | Fin a, Fin b => Qle_bool a b
  | _, _ => false
  end.

Definition fltb (x y : fnum) : bool := fleb x y && negb (fleb y x).

(** Equality of values (the comparison [==] of numpy; NaN equals nothing). *)
Definition feqb (x y : fnum) : bool := fleb x y && fleb y x.

(* ================================================================== *)
(** * Records of the data model                                        *)
(* ================================================================== *)

Module Video.
(** One row of shortform_videos.csv. [retention_rate] is read only when
    the table has that column (see [VideoTable]). *)
Record t : Type := mk {
  video_id : string;
  creator_id : string;
  format_type : option string;
  duration_sec : fnum;
  views : fnum;
  likes : fnum;
  comments : fnum;
  shares : fnum;
  watch_time : fnum;
  full_views : fnum;
  retention_rate : fnum;
  hook_watch_rate : fnum
}.
End Video.

Module Creator.
Record t : Type := mk {
  creator_id : string;
  creator_name : option string;
  niche : option string;
  followers : fnum
}.
End Creator.

(** The videos frame: its rows, and whether it has a retention_rate
    column. *)
Record VideoTable : Type := {
  has_retention_rate : bool;
  video_rows : list Video.t
}.

(** The four columns added by the derived-metric step. *)
Record DerivedMetrics : Type := {
  d_engagement_rate : fnum;
  d_avg_watch_time_per_view : fnum;
  d_like_to_view_ratio : fnum;
  d_share_to_view_ratio : fnum
}.

(** One row of [self.merged] after [_prepare_data]. *)
Record MergedRow : Type := {
  video_id : string;
  creator_id : string;
  format_type : option string;
  duration_sec : fnum;
  views : fnum;
  likes : fnum;
  comments : fnum;
  shares : fnum;
  watch_time : fnum;
  full_views : fnum;
  retention_rate : fnum;
  hook_watch_rate : fnum;
  creator_name : option string;
  niche : option string;
  followers : fnum;
  engagement_rate : fnum;
  avg_watch_time_per_view : fnum;
  like_to_view_ratio : fnum;
  share_to_view_ratio : fnum
}.

(* ================================================================== *)
(** * data_loader.py: calculate_derived_metrics                        *)
(* ================================================================== *)

Definition hundred : fnum := Fin 100.

(** [ShortformDataLoader.calculate_derived_metrics]: the videos frame
    extended by four columns, row by row. *)
Definition calculate_derived_metrics (videos : list Video.t)
  : list (Video.t * DerivedMetrics) :=
  map (fun v =>
         (v, {| d_engagement_rate :=
                  fmul (fdiv (fadd (fadd (Video.likes v) (Video.comments v))
                                   (Video.shares v))
                             (Video.views v))
                       hundred;
                d_avg_watch_time_per_view :=
                  fdiv (Video.watch_time v) (Video.views v);
                d_like_to_view_ratio := fdiv (Video.likes v) (Video.views v);
                d_share_to_view_ratio := fdiv (Video.shares v) (Video.views v)
             |}))
      videos.

(* ================================================================== *)
(** * analysis.py: _prepare_data                                       *)
(* ================================================================== *)

(** The creator columns a video row receives from one matching creator, or
    nulls when there is none. *)
Definition creator_columns (c : option Creator.t)
  : option string * option string * fnum :=
  match c with
  | Some c => (Creator.creator_name c, Creator.niche c, Creator.followers c)
  | None => (None, None, NaN)
  end.

(** [videos.merge(creators, on='creator_id', how='left')]: the rows of the
    left frame in their order, each once per matching creator (in the
    creators' order), or once with null creator columns when no creator
    matches. *)
Definition merge_left (videos : list Video.t) (creators : list Creator.t)
  : list (Video.t * option Creator.t) :=
  flat_map
    (fun v =>
       match filter (fun c => String.eqb (Creator.creator_id c)
                                         (Video.creator_id v)) creators with
       | [] => [(v, None)]
       | cs => map (fun c => (v, Some c)) cs
       end)
    videos.

(** The body of [_prepare_data] for one joined row.  The four derived
    columns are assigned whether or not the videos frame already carried
    them; retention_rate is assigned only when the column is absent. *)
Definition prepare_row (has_retention : bool) (vc : Video.t * option Creator.t)
  : MergedRow :=
  let (v, c) := vc in
  let '(cname, cniche, cfollowers) := creator_columns c in
  {| video_id := Video.video_id v;
     creator_id := Video.creator_id v;
     format_type := Video.format_type v;
     duration_sec := Video.duration_sec v;
     views := Video.views v;
     likes := Video.likes v;
     comments := Video.comments v;
     shares := Video.shares v;
     watch_time := Video.watch_time v;
     full_views := Video.full_views v;
     retention_rate :=
       if has_retention then Video.retention_rate v
       else fdiv (Video.full_views v) (Video.views v);
     hook_watch_rate := Video.hook_watch_rate v;
     creator_name := cname;
     niche := cniche;
     followers := cfollowers;
     engagement_rate :=
       fmul (fdiv (fadd (fadd (Video.likes v) (Video.comments v))
                        (Video.shares v))
                  (Video.views v))
            hundred;
     avg_watch_time_per_view := fdiv (Video.watch_time v) (Video.views v);
     like_to_view_ratio := fdiv (Video.likes v) (Video.views v);
     share_to_view_ratio := fdiv (Video.shares v) (Video.views v)
  |}.

Definition _prepare_data (videos : VideoTable) (creators : list Creator.t)
  : list MergedRow :=
  map (prepare_row (has_retention_rate videos))
      (merge_left (video_rows videos) creators).

(* ================================================================== *)
(** * pandas: reductions, rounding                                     *)
(* ================================================================== *)

Definition Qnat (n : nat) : Q := inject_Z (Z.of_nat n).

Definition fsum (l : list fnum) : fnum := fold_left fadd l (Fin 0).

(** [mean] with skipna: NaN cells are left out; no cell left gives NaN. *)
Definition fmean (l : list fnum) : fnum :=
  match filter notna l with
  | [] => NaN
  | v => fdiv (fsum v) (Fin (Qnat (length v)))
  end.

(** Sample variance (ddof = 1) with skipna. *)
Definition fvar (l : list fnum) : fnum :=
  let v := filter notna l in
  if (length v <? 2)%nat then NaN
  else
    let m := fmean v in
    fdiv (fsum (map (fun x => fmul (fsub x m) (fsub x m)) v))
         (Fin (Qnat (length v) - 1)).

(** numpy.rint: round half to even. *)
Definition Qrint (q : Q) : Z :=
  let f := Qfloor q in
  match Qcompare (q - inject_Z f) (1 # 2) with
  | Lt => f
  | Gt => (f + 1)%Z
  | Eq => if Z.even f then f else (f + 1)%Z
  end.

(** [round(d)]: rint(x * 10^d) / 10^d on finite cells. *)
Definition fround (d : nat) (x : fnum) : fnum :=
  match x with
  | Fin q =>
      let p := inject_Z (10 ^ Z.of_nat d) in
      Fin (inject_Z (Qrint (q * p)) / p)
  | _ => x
  end.

Section Sqrt.
(** The floating-point square root. *)
Variable fsqrt : Q -> Q.

Definition fsqrt_cell (x : fnum) : fnum :=
  match x with
  | Fin q => if Qltb q 0 then NaN else Fin (fsqrt q)
  | PInf => PInf
  | _ => NaN
  end.

(** [std] (ddof = 1) with skipna. *)
Definition fstd (l : list fnum) : fnum := fsqrt_cell (fvar l).
End Sqrt.

(* ================================================================== *)
(** * pandas: labels, cells, frames, series                            *)
(* ================================================================== *)

(** An index or column label. [LNaN] is the missing label. *)
Inductive label : Type :=
| LStr (s : string)
| LInt (n : Z)
| LNaN
| LPair (a b : label).

Fixpoint label_eqb (a b : label) : bool :=
  match a, b with
  | LStr s, LStr t => String.eqb s t
  | LInt n, LInt m => Z.eqb n m
  | LNaN, LNaN => true
  | LPair a1 a2, LPair b1 b2 => label_eqb a1 b1 && label_eqb a2 b2
  | _, _ => false
  end.

Definition Z_to_string (n : Z) : string := NilZero.string_of_int (Z.to_int n).

(** Python's [repr] of a label (strings between single quotes). *)
Fixpoint py_repr (a : label) : string :=
  match a with
  | LStr s => "'" ++ s ++ "'"
  | LInt n => Z_to_string n
  | LNaN => "nan"
  | LPair x y => "(" ++ py_repr x ++ ", " ++ py_repr y ++ ")"
  end%string.

(** Python's [str] of a label, as an f-string renders it. *)
Definition py_str (a : label) : string :=
  match a with
  | LStr s => s
  | _ => py_repr a
  end.

(** The string held by a string label. *)
Definition the_str (a : label) : string :=
  match a with LStr s => s | _ => EmptyString end.

(** [isinstance(x, str)] *)
Definition is_str (a : label) : bool :=
  match a with LStr _ => true | _ => false end.

Inductive cell : Type :=
| CNum (x : fnum)
| CStr (s : option string).

(** A DataFrame: column labels, and the rows with their index label. *)
Record Frame : Type := {
  columns : list label;
  frame_rows : list (label * list cell)
}.

Definition index (f : Frame) : list label := map fst (frame_rows f).

(** [len(frame)] *)
Definition frame_len (f : Frame) : nat := length (frame_rows f).

(** [frame.empty]: one of the two axes has length 0. *)
Definition empty (f : Frame) : bool :=
  match columns f, frame_rows f with
  | [], _ | _, [] => true
  | _, _ => false
  end.

(** A Series of numbers with its index. *)
Definition Series : Type := list (label * fnum).

Fixpoint position (c : label) (cols : list label) : option nat :=
  match cols with
  | [] => None
  | h :: t => if label_eqb c h then Some O
              else option_map S (position c t)
  end.

Definition cell_num (c : cell) : fnum :=
  match c with CNum x => x | CStr _ => NaN end.

Inductive exn : Type :=
| ValueError (msg : string)
| TypeError (msg : string)
| KeyError (msg : string)
| InvalidParameterError (msg : string).

Inductive result (A : Type) : Type :=
| Ok (a : A)
| Raise (e : exn).
Arguments Ok {A} a.
Arguments Raise {A} e.

(** [frame[c]] for a numeric column; KeyError when the label is absent. *)
Definition frame_col (f : Frame) (c : label) : result Series :=
  match position c (columns f) with
  | None => Raise (KeyError (py_repr c))
  | Some i =>
      Ok (map (fun r => (fst r, cell_num (nth i (snd r) (CNum NaN))))
              (frame_rows f))
  end.

(** ['c' in frame.columns] *)
Definition has_column (f : Frame) (c : label) : bool :=
  existsb (label_eqb c) (columns f).

(** The running arg-max of [Series.idxmax] with skipna: NaN cells are
    passed over and the first occurrence of the largest value wins. *)
Fixpoint argmax_from (best : option (label * fnum)) (s : Series)
  : option (label * fnum) :=
  match s with
  | [] => best
  | (l, x) :: t =>
      if isna x then argmax_from best t
      else match best with
           | None => argmax_from (Some (l, x)) t
           | Some (_, b) =>
               if fltb b x then argmax_from (Some (l, x)) t
               else argmax_from best t
           end
  end.

(** [Series.idxmax()]: raises ValueError on an empty series; on a series
    whose cells are all NaN the result is the missing label. *)
Definition idxmax (s : Series) : result label :=
  match s with
  | [] => Raise (ValueError "attempt to get argmax of an empty sequence")
  | _ => Ok (match argmax_from None s with
             | Some (l, _) => l
             | None => LNaN
             end)
  end.

(** [head(n)]: the first [n] rows; for a negative [n], all rows but the
    last [-n]. *)
Definition head {A : Type} (n : Z) (l : list A) : list A :=
  if (0 <=? n)%Z then firstn (Z.to_nat n) l
  else firstn (length l - Z.to_nat (- n)) l.

(* ================================================================== *)
(** * pandas: sorting                                                  *)
(* ================================================================== *)

Section SortDesc.
Context {A : Type}.
Variable val : A -> fnum.

(** Insertion that keeps equal values in their order of arrival: the new
    element, which comes first in the input, goes before every element
    that is not strictly larger. *)
Fixpoint insert_desc (a : A) (l : list A) : list A :=
  match l with
  | [] => [a]
  | h :: t => if fltb (val a) (val h) then h :: insert_desc a t
              else a :: l
  end.

(** Descending stable sort of cells that are not NaN. *)
Definition sort_desc (l : list A) : list A := fold_right insert_desc [] l.

(** [sort_values(ascending=False)]: descending, NaN cells last in their
    original order. *)
Definition sort_values_desc (l : list A) : list A :=
  sort_desc (filter (fun a => notna (val a)) l)
  ++ filter (fun a => isna (val a)) l.

(** [nlargest(n, keep='first')]: nothing for [n <= 0]; otherwise the
    first [n] entries in descending order, first occurrences first, the
    NaN entries after all others. *)
Definition nlargest (n : Z) (l : list A) : list A :=
  if (n <=? 0)%Z then []
  else firstn (Z.to_nat n) (sort_values_desc l).
End SortDesc.

(* ================================================================== *)
(** * pandas: groupby                                                  *)
(* ================================================================== *)

Section GroupBy.
Context {K R : Type}.
Variable eqb : K -> K -> bool.
Variable leb : K -> K -> bool.

(** Distinct values in order of first appearance (factorize). *)
Fixpoint unique (l : list K) : list K :=
  match l with
  | [] => []
  | k :: t => k :: filter (fun y => negb (eqb k y)) (unique t)
  end.

Fixpoint insert_key (k : K) (l : list K) : list K :=
  match l with
  | [] => [k]
  | h :: t => if leb k h then k :: l else h :: insert_key k t
  end.

Definition sort_keys (l : list K) : list K := fold_right insert_key [] l.

(** dropna=True: a row whose key is null belongs to no group. *)
Definition dropna_keys (l : list (option K)) : list K :=
  flat_map (fun o => match o with Some k => [k] | None => [] end) l.

(** The group keys: the distinct non-null keys, sorted (sort=True). *)
Definition group_keys (key : R -> option K) (rows : list R) : list K :=
  sort_keys (unique (dropna_keys (map key rows))).

Definition group_rows (key : R -> option K) (rows : list R) (k : K)
  : list R :=
  filter (fun r => match key r with
                   | Some k' => eqb k k'
                   | None => false
                   end) rows.

Definition groupby (key : R -> option K) (rows : list R)
  : list (K * list R) :=
  map (fun k => (k, group_rows key rows k)) (group_keys key rows).
End GroupBy.

(** The default of [groupby(..., observed=...)] on a categorical key in
    pandas 1.x and 2.x. *)
Definition observed_default : bool := false.

Section GroupByCategorical.
Context {R : Type}.

Definition code_is (c : nat) (o : option nat) : bool :=
  match o with Some c' => Nat.eqb c c' | None => false end.

(** Grouping by a categorical key with [ncat] categories, given as the
    code of each row ([None] is the missing code).  With
    [observed = false] every category has a group, present or not; with
    [observed = true] only the categories that occur.  A row with the
    missing code belongs to no group. *)
Definition groupby_categorical (observed : bool) (ncat : nat)
           (code : R -> option nat) (rows : list R)
  : list (nat * list R) :=
  let cats := seq 0 ncat in
  let shown :=
    if observed
    then filter (fun c => existsb (fun r => code_is c (code r)) rows) cats
    else cats in
  map (fun c => (c, filter (fun r => code_is c (code r)) rows)) shown.
End GroupByCategorical.

(* ================================================================== *)
(** * pandas: cut                                                      *)
(* ================================================================== *)

(** numpy.searchsorted(bins, x, side='left') on sorted bins: the first
    position whose edge is not below [x]. *)
Fixpoint searchsorted_left (bins : list Q) (x : Q) : nat :=
  match bins with
  | [] => O
  | b :: t => if Qle_bool x b then O else S (searchsorted_left t x)
  end.

(** [pd.cut(x, bins)] with right=True, include_lowest=False: the code of
    the interval (bins[i], bins[i+1]] holding [x]; the missing code when
    [x] is NaN or lies in no interval. *)
Definition cut (bins : list Q) (x : fnum) : option nat :=
  match x with
  | Fin q =>
      let i := searchsorted_left bins q in
      if Nat.eqb i 0 || Nat.eqb i (length bins) then None
      else Some (i - 1)%nat
  | _ => None
  end.

(* ================================================================== *)
(** * analysis.py: the analyzer and its state                          *)
(* ================================================================== *)

(** [self.merged]: the rows built by [_prepare_data], and the two columns
    that later calls attach to the frame ([None] while absent). *)
Record Merged : Type := {
  rows : list MergedRow;
  duration_bin : option (list (option nat));
  cluster : option (list Z)
}.

Record ShortformAnalyzer : Type := {
  videos : VideoTable;
  creators : list Creator.t;
  platforms : list (list string);
  merged : Merged
}.

(** [ShortformAnalyzer.__init__] *)
Definition init (videos_df : VideoTable) (creators_df : list Creator.t)
           (platforms_df : list (list string)) : ShortformAnalyzer :=
  {| videos := videos_df;
     creators := creators_df;
     platforms := platforms_df;
     merged := {| rows := _prepare_data videos_df creators_df;
                  duration_bin := None;
                  cluster := None |} |}.



(** The numeric columns of the merged rows, by name. *)
Definition numeric_col (name : string) : option (MergedRow -> fnum) :=
  if String.eqb name "duration_sec" then Some duration_sec
  else if String.eqb name "views" then Some views
  else if String.eqb name "likes" then Some likes
  else if String.eqb name "comments" then Some comments
  else if String.eqb name "shares" then Some shares
  else if String.eqb name "watch_time" then Some watch_time
  else if String.eqb name "full_views" then Some full_views
  else if String.eqb name "retention_rate" then Some retention_rate
  else if String.eqb name "hook_watch_rate" then Some hook_watch_rate
  else if String.eqb name "followers" then Some followers
  else if String.eqb name "engagement_rate" then Some engagement_rate
  else if String.eqb name "avg_watch_time_per_view"
       then Some avg_watch_time_per_view
  else if String.eqb name "like_to_view_ratio" then Some like_to_view_ratio
  else if String.eqb name "share_to_view_ratio" then Some share_to_view_ratio
  else None.

(** The analyzer's methods run in a state-and-exception monad over the
    analyzer object: a call returns a value or raises, and in both cases
    leaves the object as it was at that moment. *)
Definition M (A : Type) : Type :=
  ShortformAnalyzer -> result A * ShortformAnalyzer.

Definition ret {A : Type} (a : A) : M A := fun s => (Ok a, s).

Definition bind {A B : Type} (m : M A) (k : A -> M B) : M B :=
  fun s => match m s with
           | (Ok a, s') => k a s'
           | (Raise e, s') => (Raise e, s')
           end.

Definition lift {A : Type} (r : result A) : M A := fun s => (r, s).

Definition get_self : M ShortformAnalyzer := fun s => (Ok s, s).

Definition get_merged : M Merged := fun s => (Ok (merged s), s).

Definition set_merged (m : Merged) : M unit :=
  fun s => (Ok tt, {| videos := videos s;
                      creators := creators s;
                      platforms := platforms s;
                      merged := m |}).

Declare Scope monad_scope.
Delimit Scope monad_scope with monad.
Notation "x <- m ;; k" := (bind m (fun x => k))
  (at level 61, m at next level, right associativity) : monad_scope.
Notation "m ;;; k" := (bind m (fun _ => k))
  (at level 61, right associativity) : monad_scope.

(* ================================================================== *)
(** * Aggregation                                                      *)
(* ================================================================== *)

Inductive stat : Type := Mean | Std | Count.

Definition stat_name (st : stat) : string :=
  match st with
  | Mean => "mean"
  | Std => "std"
  | Count => "count"
  end.

(** One entry of the dictionary given to [agg]. *)
Definition agg_entry : Type := (string * (MergedRow -> fnum) * list stat)%type.

Definition format_type_agg : list agg_entry :=
  [("views", views, [Mean; Std]);
   ("likes", likes, [Mean; Std]);
   ("comments", comments, [Mean; Std]);
   ("shares", shares, [Mean; Std]);
   ("retention_rate", retention_rate, [Mean; Std]);
   ("engagement_rate", engagement_rate, [Mean; Std]);
   ("hook_watch_rate", hook_watch_rate, [Mean; Std])]%string.

Definition creator_agg : list agg_entry :=
  [("views", views, [Mean]);
   ("likes", likes, [Mean]);
   ("shares", shares, [Mean]);
   ("retention_rate", retention_rate, [Mean]);
   ("engagement_rate", engagement_rate, [Mean]);
   ("hook_watch_rate", hook_watch_rate, [Mean])]%string.

Definition niche_agg : list agg_entry :=
  [("views", views, [Mean; Count]);
   ("likes", likes, [Mean]);
   ("shares", shares, [Mean]);
   ("retention_rate", retention_rate, [Mean]);
   ("engagement_rate", engagement_rate, [Mean]);
   ("hook_watch_rate", hook_watch_rate, [Mean])]%string.

Definition duration_agg : list agg_entry :=
  [("views", views, [Mean]);
   ("retention_rate", retention_rate, [Mean]);
   ("engagement_rate", engagement_rate, [Mean]);
   ("hook_watch_rate", hook_watch_rate, [Mean])]%string.

Definition features : list (string * (MergedRow -> fnum)) :=
  [("views", views); ("likes", likes); ("shares", shares);
   ("retention_rate", retention_rate);
   ("engagement_rate", engagement_rate)]%string.

Definition numeric_cols : list (string * (MergedRow -> fnum)) :=
  [("views", views); ("likes", likes); ("comments", comments);
   ("shares", shares); ("watch_time", watch_time);
   ("full_views", full_views); ("retention_rate", retention_rate);
   ("hook_watch_rate", hook_watch_rate);
   ("engagement_rate", engagement_rate);
   ("avg_watch_time_per_view", avg_watch_time_per_view);
   ("like_to_view_ratio", like_to_view_ratio);
   ("share_to_view_ratio", share_to_view_ratio)]%string.

Definition duration_bins : list Q := [0; 15; 30; 45; 60; 100].

Definition duration_labels : list string :=
  ["0-15s"; "15-30s"; "30-45s"; "45-60s"; "60s+"]%string.

(** Column labels when some entry of the dictionary lists its functions:
    pairs (column, function). *)
Definition columns_multi (spec : list agg_entry) : list label :=
  flat_map (fun e : agg_entry =>
              let '(name, _, sts) := e in
              map (fun st => LPair (LStr name) (LStr (stat_name st))) sts)
           spec.

(** Column labels when every entry names one function: the column names. *)
Definition columns_flat (spec : list agg_entry) : list label :=
  map (fun e : agg_entry => let '(name, _, _) := e in LStr name) spec.

(** ['_'.join(col)] on a pair label. *)
Definition join_label (l : label) : label :=
  match l with
  | LPair (LStr a) (LStr b) => LStr (a ++ "_" ++ b)
  | _ => l
  end.

(** Keys of the string-valued groupings. *)
Definition pair_eqb (a b : string * string) : bool :=
  String.eqb (fst a) (fst b) && String.eqb (snd a) (snd b).

Definition pair_leb (a b : string * string) : bool :=
  if String.eqb (fst a) (fst b) then String.leb (snd a) (snd b)
  else String.leb (fst a) (fst b).

(** The composite key (creator_name, niche): null as soon as one part is. *)
Definition creator_key (r : MergedRow) : option (string * string) :=
  match creator_name r, niche r with
  | Some a, Some b => Some (a, b)
  | _, _ => None
  end.

(* ================================================================== *)
(** * analysis.py: the analyses                                        *)
(* ================================================================== *)

Section Analyses.
(** numpy's square root. *)
Variable fsqrt : Q -> Q.

(** [KMeans(n_clusters=k, random_state=42).fit_predict(X)] on a matrix
    that passed the validation of scikit-learn: the label of each row. *)
Variable kmeans_labels : Z -> list (list fnum) -> list Z.

Definition apply_stat (st : stat) (l : list fnum) : fnum :=
  match st with
  | Mean => fmean l
  | Std => fstd fsqrt l
  | Count => Fin (Qnat (length (filter notna l)))
  end.

(** [round] leaves the integer column of a count as it is. *)
Definition round_stat (d : nat) (st : stat) (x : fnum) : fnum :=
  match st with
  | Count => x
  | _ => fround d x
  end.

(** The summary row of one group. *)
Definition agg (d : nat) (spec : list agg_entry) (grp : list MergedRow)
  : list cell :=
  flat_map (fun e : agg_entry =>
              let '(_, col, sts) := e in
              map (fun st => CNum (round_stat d st
                                     (apply_stat st (map col grp)))) sts)
           spec.

(** ** format_performance_analysis *)

Definition format_stats_of (rs : list MergedRow) : Frame :=
  {| columns := columns_multi format_type_agg;
     frame_rows :=
       map (fun g => (LStr (fst g), agg 2 format_type_agg (snd g)))
           (groupby String.eqb String.leb format_type rs) |}.

Definition format_performance_analysis : M Frame :=
  (m <- get_merged ;;
   ret (format_stats_of (rows m)))%monad.

(** ** creator_performance_ranking *)

(** [groupby(['creator_name', 'niche']).agg(...).round(3)] *)
Definition creator_stats_of (rs : list MergedRow)
  : list ((string * string) * list cell) :=
  map (fun g => (fst g, agg 3 creator_agg (snd g)))
      (groupby pair_eqb pair_leb creator_key rs).

(** [creator_stats.merge(creators[['creator_name', 'followers']],
    on='creator_name', how='left')].  The key is an index level on the
    left and a column on the right: the result is numbered 0, 1, 2, ...
    anew, the key comes back as its first column and the other index
    level (niche) is dropped.  A group is repeated once per creator of
    that name. *)
Definition merge_followers (cs : list Creator.t)
           (stats : list ((string * string) * list cell))
  : list (list cell) :=
  flat_map
    (fun g =>
       let name := fst (fst g) in
       match filter (fun c => match Creator.creator_name c with
                              | Some n => String.eqb n name
                              | None => false
                              end) cs with
       | [] => [CStr (Some name) :: snd g ++ [CNum NaN]]
       | matches =>
           map (fun c => CStr (Some name) :: snd g
                              ++ [CNum (Creator.followers c)]) matches
       end)
    stats.

Definition number_rows (l : list (list cell)) : list (label * list cell) :=
  combine (map (fun i => LInt (Z.of_nat i)) (seq 0 (length l))) l.

Definition creator_columns_merged : list label :=
  LStr "creator_name" :: columns_flat creator_agg ++ [LStr "followers"].

(** Position of retention_rate among [creator_columns_merged]. *)
Definition retention_of (r : label * list cell) : fnum :=
  cell_num (nth 4 (snd r) (CNum NaN)).

Definition creator_ranking_of (cs : list Creator.t) (rs : list MergedRow)
           (top_n : Z) : Frame :=
  {| columns := creator_columns_merged;
     frame_rows :=
       head top_n
            (sort_values_desc retention_of
               (number_rows (merge_followers cs (creator_stats_of rs)))) |}.

Definition creator_performance_ranking (top_n : Z) : M Frame :=
  (self <- get_self ;;
   ret (creator_ranking_of (creators self) (rows (merged self)) top_n))%monad.

(** ** niche_analysis *)

Definition niche_stats_of (rs : list MergedRow) : Frame :=
  {| columns := map join_label (columns_multi niche_agg);
     frame_rows :=
       map (fun g => (LStr (fst g), agg 3 niche_agg (snd g)))
           (groupby String.eqb String.leb niche rs) |}.

Definition niche_analysis : M Frame :=
  (m <- get_merged ;;
   ret (niche_stats_of (rows m)))%monad.

(** ** duration_analysis *)

(** The codes of the duration_bin column. *)
Definition duration_codes (rs : list MergedRow) : list (option nat) :=
  map (fun r => cut duration_bins (duration_sec r)) rs.

Definition duration_label (c : nat) : label :=
  LStr (nth c duration_labels ""%string).

(** The label of the bin that [pd.cut] assigns to a duration, if any. *)
Definition bucket_label (x : fnum) : option string :=
  option_map (fun c => nth c duration_labels ""%string)
             (cut duration_bins x).

(** [groupby('duration_bin').agg(...).round(3)] on rows paired with the
    code of their bin. *)
Definition duration_stats_of (observed : bool)
           (coded : list (MergedRow * option nat)) : Frame :=
  {| columns := columns_flat duration_agg;
     frame_rows :=
       map (fun g => (duration_label (fst g),
                      agg 3 duration_agg (map fst (snd g))))
           (groupby_categorical observed (length duration_labels)
                                snd coded) |}.

(** The call first writes the duration_bin column into [self.merged]. *)
Definition duration_analysis : M Frame :=
  (m <- get_merged ;;
   let codes := duration_codes (rows m) in
   set_merged {| rows := rows m;
                 duration_bin := Some codes;
                 cluster := cluster m |} ;;;
   ret (duration_stats_of observed_default (combine (rows m) codes)))%monad.

(** ** correlation_analysis *)

(** State of the one-pass (Welford) accumulation of [DataFrame.corr]. *)
Record welford : Type := {
  nobs : Q;
  meanx : Q;
  meany : Q;
  ssqdm_x : Q;
  ssqdm_y : Q;
  covxy : Q
}.

Definition welford_init : welford :=
  {| nobs := 0; meanx := 0; meany := 0;
     ssqdm_x := 0; ssqdm_y := 0; covxy := 0 |}.

Definition welford_step (st : welford) (vx vy : Q) : welford :=
  let n := nobs st + 1 in
  let dx := vx - meanx st in
  let dy := vy - meany st in
  let mx := meanx st + 1 / n * dx in
  let my := meany st + 1 / n * dy in
  {| nobs := n;
     meanx := mx;
     meany := my;
     ssqdm_x := ssqdm_x st + (vx - mx) * dx;
     ssqdm_y := ssqdm_y st + (vy - my) * dy;
     covxy := covxy st + (vx - mx) * dy |}.

(** Only the rows where both cells are finite take part. *)
Definition welford_row (st : welford) (xy : fnum * fnum) : welford :=
  match xy with
  | (Fin vx, Fin vy) => welford_step st vx vy
  | _ => st
  end.

Definition welford_run (xs ys : list fnum) : welford :=
  fold_left welford_row (combine xs ys) welford_init.

(** One entry of the Pearson matrix, min_periods = 1. *)
Definition nancorr_pair (xs ys : list fnum) : fnum :=
  let st := welford_run xs ys in
  if Qltb (nobs st) 1 then NaN
  else
    let divisor := fsqrt (ssqdm_x st * ssqdm_y st) in
    if negb (Qeq_bool divisor 0) then Fin (covxy st / divisor)
    else NaN.

(** The loops [for xi in range(K): for yi in range(xi + 1)] fill
    [result[xi, yi]] and [result[yi, xi]] with the same value. *)
Definition nancorr_entry (cols : list (list fnum)) (i j : nat) : fnum :=
  let xi := Nat.max i j in
  let yi := Nat.min i j in
  nancorr_pair (nth xi cols []) (nth yi cols []).

Definition corr_matrix_of (rs : list MergedRow) : Frame :=
  let names := map fst numeric_cols in
  let cols := map (fun c => map (snd c) rs) numeric_cols in
  let K := length numeric_cols in
  {| columns := map LStr names;
     frame_rows :=
       map (fun i => (LStr (nth i names ""%string),
                      map (fun j => CNum (nancorr_entry cols i j))
                          (seq 0 K)))
           (seq 0 K) |}.

Definition correlation_analysis : M Frame :=
  (m <- get_merged ;;
   ret (corr_matrix_of (rows m)))%monad.

(** ** performance_clustering *)

(** [StandardScaler.fit_transform] on one column: mean and (population)
    standard deviation over the cells that are not NaN; a zero deviation
    is replaced by 1. *)
Definition scale_column (col : list fnum) : list fnum :=
  let v := filter notna col in
  let m := fmean col in
  let var0 :=
    match v with
    | [] => NaN
    | _ => fdiv (fsum (map (fun x => fmul (fsub x m) (fsub x m)) v))
                (Fin (Qnat (length v)))
    end in
  let sd := fsqrt_cell fsqrt var0 in
  let scale := if feqb sd (Fin 0) then Fin 1 else sd in
  map (fun x => fdiv (fsub x m) scale) col.

Definition is_inf (x : fnum) : bool :=
  match x with PInf | NInf => true | _ => false end.

(** The input validation of the scaler, then the scaling.  The matrix is
    given by its columns over [n] rows and returned by rows. *)
Definition scaler_fit_transform (n : nat) (cols : list (list fnum))
  : result (list (list fnum)) :=
  if existsb (existsb is_inf) cols then
    Raise (ValueError
      "Input X contains infinity or a value too large for dtype('float64').")
  else if Nat.eqb n 0 then
    Raise (ValueError
      "Found array with 0 sample(s) (shape=(0, 5)) while a minimum of 1 is required by StandardScaler.")
  else
    let scaled := map scale_column cols in
    Ok (map (fun i => map (fun c => nth i c NaN) scaled) (seq 0 n)).

(** [KMeans(n_clusters=k, random_state=42).fit_predict(X)]: parameter
    validation, input validation, the check of the parameter against the
    number of rows, then the clustering itself. *)
Definition kmeans_fit_predict (k : Z) (X : list (list fnum))
  : result (list Z) :=
  if (k <? 1)%Z then
    Raise (InvalidParameterError
      ("The 'n_clusters' parameter of KMeans must be an int in the range [1, inf). Got "
         ++ Z_to_string k ++ " instead."))
  else if existsb (existsb isna) X then
    Raise (ValueError "Input X contains NaN.")
  else if (Z.of_nat (length X) <? k)%Z then
    Raise (ValueError
      ("n_samples=" ++ Z_to_string (Z.of_nat (length X))
         ++ " should be >= n_clusters=" ++ Z_to_string k ++ "."))
  else Ok (kmeans_labels k X).

(** [self.merged['cluster'] = values]: the lengths must agree. *)
Definition assign_cluster (labels : list Z) : M unit :=
  (m <- get_merged ;;
   if Nat.eqb (length labels) (length (rows m)) then
     set_merged {| rows := rows m;
                   duration_bin := duration_bin m;
                   cluster := Some labels |}
   else
     lift (Raise (ValueError
       "Length of values does not match length of index")))%monad.

(** [groupby('cluster')[features].mean().round(3)] with the column
    [count] of the group sizes. *)
Definition cluster_analysis_of (labelled : list (MergedRow * Z)) : Frame :=
  {| columns := map (fun f => LStr (fst f)) features ++ [LStr "count"];
     frame_rows :=
       map (fun g =>
              (LInt (fst g),
               map (fun f => CNum (fround 3
                                     (fmean (map (fun r => snd f (fst r))
                                                 (snd g)))))
                   features
               ++ [CNum (Fin (Qnat (length (snd g))))]))
           (groupby Z.eqb Z.leb (fun r => Some (snd r)) labelled) |}.

Definition performance_clustering (n_clusters : Z) : M Frame :=
  (m <- get_merged ;;
   scaled_features <-
     lift (scaler_fit_transform (length (rows m))
             (map (fun f => map (snd f) (rows m)) features)) ;;
   labels <- lift (kmeans_fit_predict n_clusters scaled_features) ;;
   assign_cluster labels ;;;
   ret (cluster_analysis_of (combine (rows m) labels)))%monad.

(** ** top_performers_analysis *)

Definition string_columns : list string :=
  ["video_id"; "creator_id"; "format_type"; "creator_name";
   "niche"]%string.

Definition dtype_error (name dtype : string) : exn :=
  TypeError ("Column '" ++ name ++ "' has dtype " ++ dtype
               ++ ", cannot use method 'nlargest' with this dtype").

(** The column [self.merged[name]] as [nlargest] takes it: KeyError for a
    name that is no column, TypeError for a column that is not
    numeric. *)
Definition column_values (m : Merged) (name : string)
  : result (list fnum) :=
  match numeric_col name with
  | Some col => Ok (map col (rows m))
  | None =>
      if String.eqb name "cluster" then
        match cluster m with
        | Some l => Ok (map (fun z => Fin (inject_Z z)) l)
        | None => Raise (KeyError name)
        end
      else if String.eqb name "duration_bin" then
        match duration_bin m with
        | Some _ => Raise (dtype_error name "category")
        | None => Raise (KeyError name)
        end
      else if existsb (String.eqb name) string_columns then
        Raise (dtype_error name "object")
      else Raise (KeyError name)
  end.

Definition top_columns : list label :=
  map LStr ["video_id"; "creator_name"; "format_type"; "duration_sec";
            "views"; "likes"; "shares"; "retention_rate";
            "engagement_rate"; "hook_watch_rate"; "niche"]%string.

(** The projection of a merged row on [top_columns]. *)
Definition project (r : MergedRow) : list cell :=
  [CStr (Some (video_id r)); CStr (creator_name r); CStr (format_type r);
   CNum (duration_sec r); CNum (views r); CNum (likes r);
   CNum (shares r); CNum (retention_rate r); CNum (engagement_rate r);
   CNum (hook_watch_rate r); CStr (niche r)].

(** A row of the merged frame with its index label (its position) and
    its cell in the ranked column. *)
Definition ranked : Type := (nat * (MergedRow * fnum))%type.

Definition rank_value (x : ranked) : fnum := snd (snd x).

Definition with_positions (rs : list MergedRow) (vals : list fnum)
  : list ranked :=
  combine (seq 0 (length rs)) (combine rs vals).

Definition top_performers_analysis (metric : string) (top_n : Z)
  : M Frame :=
  (m <- get_merged ;;
   vals <- lift (column_values m metric) ;;
   ret {| columns := top_columns;
          frame_rows :=
            map (fun x : ranked =>
                   (LInt (Z.of_nat (fst x)), project (fst (snd x))))
                (nlargest rank_value top_n
                          (with_positions (rows m) vals)) |})%monad.

(** ** generate_insights_report *)

(** [frame.unstack()] of a square frame of numbers: a series indexed by
    (column, row), column by column. *)
Definition unstack (f : Frame) : Series :=
  flat_map
    (fun jc => map (fun r => (LPair (snd jc) (fst r),
                              cell_num (nth (fst jc) (snd r) (CNum NaN))))
                   (frame_rows f))
    (combine (seq 0 (length (columns f))) (columns f)).

Definition generate_insights_report : M (list string) :=
  ((* Format insights *)
   format_stats <- format_performance_analysis ;;
   retention_mean <-
     lift (frame_col format_stats
                     (LPair (LStr "retention_rate") (LStr "mean"))) ;;
   best_format <- lift (idxmax retention_mean) ;;
   let insights :=
     [" **Best Performing Format**: " ++ py_str best_format
        ++ " has the highest average retention rate"]%string in
   (* Creator insights *)
   top_creators <- creator_performance_ranking 5 ;;
   let insights :=
     insights ++
     [if (0 <? frame_len top_creators)%nat then
        let first := nth 0 (index top_creators) LNaN in
        let top_creator_name :=
          if is_str first then the_str first else py_str first in
        (" **Top Creator**: " ++ top_creator_name
           ++ " leads in retention rate")%string
      else
        " **Top Creator**: Analysis available in detailed report"%string] in
   (* Niche insights *)
   niche_stats <- niche_analysis ;;
   engagement_mean <-
     lift (frame_col niche_stats (LStr "engagement_rate_mean")) ;;
   best_niche <- lift (idxmax engagement_mean) ;;
   let insights :=
     insights ++
     [" **Most Engaging Niche**: " ++ py_str best_niche
        ++ " generates highest engagement rates"]%string in
   (* Duration insights *)
   duration_stats <- duration_analysis ;;
   insights <-
     (if negb (empty duration_stats)
         && has_column duration_stats (LStr "retention_rate")
      then
        retention <-
          lift (frame_col duration_stats (LStr "retention_rate")) ;;
        optimal_duration <- lift (idxmax retention) ;;
        ret (insights ++
             [" **Optimal Duration**: " ++ py_str optimal_duration
                ++ " videos perform best"]%string)
      else
        ret (insights ++
             [" **Duration Analysis**: Available in detailed report"%string])) ;;
   (* Correlation insights *)
   corr_matrix <- correlation_analysis ;;
   let highest_corr := sort_values_desc snd (unstack corr_matrix) in
   ret (insights ++
        [if (2 <? length highest_corr)%nat then
           (" **Strongest Correlation**: "
              ++ py_str (fst (nth 1 highest_corr (LNaN, NaN)))
              ++ " and "
              ++ py_str (fst (nth 2 highest_corr (LNaN, NaN))))%string
         else
           " **Correlation Analysis**: Available in detailed analysis"%string]))%monad.
End Analyses.

(* ================================================================== *)
(** * Example tables                                                   *)
(* ================================================================== *)

Local Open Scope string_scope.

(** A square root on the rationals that is exact on squares, used to run
    the analyses on the example tables. *)
Definition Qsqrt (q : Q) : Q :=
  Z.sqrt (Qnum q * Zpos (Qden q)) # Qden q.

(** A clustering that puts every row in cluster 0 (what k-means returns
    when all rows coincide). *)
Definition one_cluster (k : Z) (X : list (list fnum)) : list Z :=
  map (fun _ => 0%Z) X.

Definition video (id cid fmt : string) (dur v l c s : Q) : Video.t :=
  Video.mk id cid (Some fmt) (Fin dur) (Fin v) (Fin l) (Fin c) (Fin s)
           (Fin 0) (Fin 0) (Fin (1 # 2)) (Fin (1 # 2)).

Definition Ann : Creator.t :=
  Creator.mk "c1" (Some "Ann") (Some "food") (Fin 1000).

(** The three video rows of the end-to-end scenario: views 100, 0, 50 and
    likes 10, 5, 5, no comments, no shares. *)
Definition scenario_videos : VideoTable :=
  {| has_retention_rate := true;
     video_rows := [video "v1" "c1" "A" 10 100 10 0 0;
                    video "v2" "c1" "B" 20 0 5 0 0;
                    video "v3" "c1" "A" 40 50 5 0 0] |}.

Definition scenario_creators : list Creator.t := [Ann].

(** No video at all (a file holding only the header line). *)
Definition no_videos : VideoTable :=
  {| has_retention_rate := true; video_rows := [] |}.

(** One video whose creator is not in the creators table. *)
Definition orphan_video : VideoTable :=
  {| has_retention_rate := true;
     video_rows := [video "v1" "c9" "A" 10 100 10 0 0] |}.

(** One ten-second video. *)
Definition short_video : VideoTable :=
  {| has_retention_rate := true;
     video_rows := [video "v1" "c1" "A" 10 100 10 0 0] |}.

(** One video of 120 seconds. *)
Definition long_video : VideoTable :=
  {| has_retention_rate := true;
     video_rows := [video "v1" "c1" "A" 120 100 10 0 0] |}.

(** Two videos with the same counters. *)
Definition twin_videos : VideoTable :=
  {| has_retention_rate := true;
     video_rows := [video "v1" "c1" "A" 10 100 10 0 0;
                    video "v2" "c1" "A" 10 100 10 0 0] |}.

(** Three videos, two of them with the same views. *)
Definition tied_videos : VideoTable :=
  {| has_retention_rate := true;
     video_rows := [video "v1" "c1" "A" 10 50 10 0 0;
                    video "v2" "c1" "B" 20 100 5 0 0;
                    video "v3" "c1" "A" 40 50 5 0 0] |}.

Local Close Scope string_scope.

(** Decidable equality of the composite key, to count distinct keys. *)
Definition pair_dec (a b : string * string) : {a = b} + {a <> b}.
Proof. decide equality; apply string_dec. Defined.

Definition code_dec (a b : nat) : {a = b} + {a <> b} := Nat.eq_dec a b.

(* ================================================================== *)
(** * Predicates used in the statements                                *)
(* ================================================================== *)



Definition exn_message (e : exn) : string :=
  match e with
  | ValueError msg | TypeError msg | KeyError msg
  | InvalidParameterError msg => msg
  end.

(** The message [msg] contains the parameter name [p]. *)
Definition names_parameter (p msg : string) : Prop :=
  exists before after : string, msg = (before ++ p ++ after)%string.

(** The feature matrix of the clustering, one row per merged row. *)
Definition feature_rows (rs : list MergedRow) : list (list fnum) :=
  map (fun r => map (fun f => snd f r) features) rs.

Definition row_eqb (a b : list fnum) : bool :=
  Nat.eqb (length a) (length b)
  && forallb (fun p => feqb (fst p) (snd p)) (combine a b).

(** The number of distinct rows of a matrix. *)
Definition distinct_rows (X : list (list fnum)) : nat :=
  length (unique row_eqb X).

Definition finite_cell (x : fnum) : Prop := exists q, x = Fin q.

(** Every feature cell of every row is a finite number. *)
Definition features_finite (rs : list MergedRow) : Prop :=
  forall r f, In r rs -> In f features -> isfinite (snd f r) = true.












(* ================================================================== *)
(** * data_loader.py: validation and summary                           *)
(* ================================================================== *)

(** The platforms frame: its header and its rows of cells, a missing cell
    being [None].  The loader only counts its rows and its nulls. *)
Record PlatformTable : Type := {
  platform_columns : list string;
  platform_rows : list (list (option string))
}.

(** The three frames of a [ShortformDataLoader] after [load_csv_data]. *)
Record LoadedData : Type := {
  loaded_videos : VideoTable;
  loaded_creators : list Creator.t;
  loaded_platforms : PlatformTable
}.

Definition is_none {A : Type} (o : option A) : bool :=
  match o with None => true | Some _ => false end.

(** [df.isnull().sum()]: the number of nulls of each column, in column
    order.  The identifier columns hold no null. *)
Definition videos_missing (vt : VideoTable) : list (string * nat) :=
  let vs := video_rows vt in
  let num (col : Video.t -> fnum) := length (filter isna (map col vs)) in
  [("video_id", O); ("creator_id", O);
   ("format_type", length (filter is_none (map Video.format_type vs)));
   ("duration_sec", num Video.duration_sec);
   ("views", num Video.views);
   ("likes", num Video.likes);
   ("comments", num Video.comments);
   ("shares", num Video.shares);
   ("watch_time", num Video.watch_time);
   ("full_views", num Video.full_views)]%string
  ++ (if has_retention_rate vt
      then [("retention_rate"%string, num Video.retention_rate)]
      else [])
  ++ [("hook_watch_rate"%string, num Video.hook_watch_rate)].

Definition creators_missing (cs : list Creator.t) : list (string * nat) :=
  [("creator_id", O);
   ("creator_name", length (filter is_none (map Creator.creator_name cs)));
   ("niche", length (filter is_none (map Creator.niche cs)));
   ("followers", length (filter isna (map Creator.followers cs)))]%string.

Definition platforms_missing (pt : PlatformTable) : list (string * nat) :=
  map (fun jc : nat * string =>
         (snd jc,
          length (filter (fun row => is_none (nth (fst jc) row None))
                         (platform_rows pt))))
      (combine (seq 0 (length (platform_columns pt))) (platform_columns pt)).

Inductive issue : Type :=
| MissingValues (df_name : string) (missing : list (string * nat))
| DuplicateVideoIds
| InvalidRetentionRates
| NegativeValues (col : string).

(** The issue of one frame: raised when the counts sum to more than 0, and
    listing the columns whose count is positive. *)
Definition missing_issue (df_name : string) (missing : list (string * nat))
  : list issue :=
  if (0 <? list_sum (map snd missing))%nat
  then [MissingValues df_name
          (filter (fun c => (0 <? snd c)%nat) missing)]
  else [].

(** [series.duplicated().any()] *)
Fixpoint has_duplicates (l : list string) : bool :=
  match l with
  | [] => false
  | x :: t => existsb (String.eqb x) t || has_duplicates t
  end.

(** The counters checked for negative values. *)
Definition counter_cols : list (string * (Video.t -> fnum)) :=
  [("views", Video.views); ("likes", Video.likes);
   ("comments", Video.comments); ("shares", Video.shares);
   ("watch_time", Video.watch_time);
   ("full_views", Video.full_views)]%string.

(** The list [issues] built by [validate_data]. *)
Definition validation_issues (d : LoadedData) : list issue :=
  let vs := video_rows (loaded_videos d) in
  missing_issue "videos" (videos_missing (loaded_videos d))
  ++ missing_issue "creators" (creators_missing (loaded_creators d))
  ++ missing_issue "platforms" (platforms_missing (loaded_platforms d))
  ++ (if has_duplicates (map Video.video_id vs)
      then [DuplicateVideoIds] else [])
  ++ (if has_retention_rate (loaded_videos d)
         && existsb (fun v => fltb (Fin 1) (Video.retention_rate v)) vs
      then [InvalidRetentionRates] else [])
  ++ flat_map (fun c : string * (Video.t -> fnum) =>
                 if existsb (fun v => fltb (snd c v) (Fin 0)) vs
                 then [NegativeValues (fst c)] else [])
              counter_cols.

(** [ShortformDataLoader.validate_data]: the issues are logged, and the
    result tells whether there was none. *)
Definition validate_data (d : LoadedData) : bool :=
  Nat.eqb (length (validation_issues d)) 0.

(** [series.nunique()]: the number of distinct values that are not null. *)
Definition nunique (l : list (option string)) : nat :=
  length (unique String.eqb (dropna_keys l)).

(** The dictionary returned by [get_data_summary]; the entry
    avg_retention_rate is the text 'Not calculated' when the videos frame
    has no retention_rate column. *)
Record DataSummary : Type := {
  total_videos : nat;
  total_creators : nat;
  total_platforms : nat;
  avg_views : fnum;
  format_types : nat;
  creator_niches : nat;
  avg_retention_rate : fnum + string
}.

Definition get_data_summary (d : LoadedData) : DataSummary :=
  let vs := video_rows (loaded_videos d) in
  {| total_videos := length vs;
     total_creators := length (loaded_creators d);
     total_platforms := length (platform_rows (loaded_platforms d));
     avg_views := fmean (map Video.views vs);
     format_types := nunique (map Video.format_type vs);
     creator_niches := nunique (map Creator.niche (loaded_creators d));
     avg_retention_rate :=
       if has_retention_rate (loaded_videos d)
       then inl (fmean (map Video.retention_rate vs))
       else inr "Not calculated"%string |}.

(** What [validate_data] checks, as a property of the loaded frames: no
    null cell, no repeated video_id, no retention_rate above 1 when the
    column exists, no negative counter. *)
Definition clean_video (has_retention : bool) (v : Video.t) : Prop :=
  Video.format_type v <> None
  /\ isna (Video.duration_sec v) = false
  /\ isna (Video.views v) = false
  /\ isna (Video.likes v) = false
  /\ isna (Video.comments v) = false
  /\ isna (Video.shares v) = false
  /\ isna (Video.watch_time v) = false
  /\ isna (Video.full_views v) = false
  /\ (has_retention = true -> isna (Video.retention_rate v) = false)
  /\ isna (Video.hook_watch_rate v) = false.

Definition clean_creator (c : Creator.t) : Prop :=
  Creator.creator_name c <> None
  /\ Creator.niche c <> None
  /\ isna (Creator.followers c) = false.

Definition clean_platforms (pt : PlatformTable) : Prop :=
  forall row j, In row (platform_rows pt) ->
                (j < length (platform_columns pt))%nat ->
                nth j row None <> None.

Definition clean_tables (d : LoadedData) : Prop :=
  let vt := loaded_videos d in
  (forall v, In v (video_rows vt) -> clean_video (has_retention_rate vt) v)
  /\ (forall c, In c (loaded_creators d) -> clean_creator c)
  /\ clean_platforms (loaded_platforms d)
  /\ NoDup (map Video.video_id (video_rows vt))
  /\ (has_retention_rate vt = true ->
      forall v, In v (video_rows vt) ->
                fltb (Fin 1) (Video.retention_rate v) = false)
  /\ (forall v c, In v (video_rows vt) -> In c counter_cols ->
                  fltb (snd c v) (Fin 0) = false).




(** The series that the report takes its arg-max of. *)
Definition column_series (i : nat) (f : Frame) : Series :=
  map (fun r => (fst r, cell_num (nth i (snd r) (CNum NaN)))) (frame_rows f).

(** The five sentences of a report that returns. *)
Definition report_sentences (best_format first_creator best_niche
                             optimal_duration corr1 corr2 : string)
           (has_creator : bool) : list string :=
  [(" **Best Performing Format**: " ++ best_format
      ++ " has the highest average retention rate")%string;
   if has_creator
   then (" **Top Creator**: " ++ first_creator
           ++ " leads in retention rate")%string
   else " **Top Creator**: Analysis available in detailed report"%string;
   (" **Most Engaging Niche**: " ++ best_niche
      ++ " generates highest engagement rates")%string;
   (" **Optimal Duration**: " ++ optimal_duration
      ++ " videos perform best")%string;
   (" **Strongest Correlation**: " ++ corr1 ++ " and " ++ corr2)%string].

(** The sizes of the groups of a grouping. *)
Definition group_sizes {K R : Type} (groups : list (K * list R)) : list nat :=
  map (fun g => length (snd g)) groups.

(** The number of rows whose grouping key is not null. *)
Definition keyed_rows {K R : Type} (key : R -> option K) (rs : list R) : nat :=
  length (filter (fun r => negb (is_none (key r))) rs).

(** The row [r] has the key [k]. *)
Definition has_key {K R : Type} (eqb : K -> K -> bool)
           (key : R -> option K) (k : K) (r : R) : bool :=
  match key r with
  | Some k' => eqb k k'
  | None => false
  end.

(* ================================================================== *)
(** * Properties                                                       *)
(* ================================================================== *)

(** ** Derived metrics *)

Lemma fdiv_nonzero (a b : Q) : ~ b == 0 -> fdiv (Fin a) (Fin b) = Fin (a / b).
Proof.
  intros Hb. simpl.
  destruct (Qeq_bool b 0) eqn:E; [|reflexivity].
  apply Qeq_bool_iff in E. contradiction.
Qed.



Lemma In_prepare_data (vt : VideoTable) (cs : list Creator.t) (r : MergedRow) :
  In r (_prepare_data vt cs) ->
  exists v c, In v (video_rows vt)
              /\ r = prepare_row (has_retention_rate vt) (v, c).
Proof.
  unfold _prepare_data, merge_left. intros H.
  apply in_map_iff in H. destruct H as [[v c] [Hr Hin]].
  apply in_flat_map in Hin. destruct Hin as [v' [Hv Hin]].
  exists v, c. split; [|now symmetry].
  destruct (filter _ cs) as [|c0 l] in Hin.
  - destruct Hin as [Hin|[]]. now inversion Hin; subst.
  - apply in_map_iff in Hin. destruct Hin as [c1 [Hin _]].
    now inversion Hin; subst.
Qed.




(** ** Duration buckets *)

Lemma Qle_bool_false (a b : Q) : Qle_bool a b = false -> b < a.
Proof.
  intros H. apply Qnot_le_lt. intros Hle.
  apply Qle_bool_iff in Hle. congruence.
Qed.

Ltac split_edges :=
  repeat match goal with
         | |- context [Qle_bool ?a ?b] =>
             let E := fresh "E" in
             destruct (Qle_bool a b) eqn:E;
             [apply Qle_bool_iff in E | apply Qle_bool_false in E];
             cbn [Nat.eqb orb option_map Nat.sub nth List.length]
         end.

Lemma bucket_label_cases (q : Q) :
  bucket_label (Fin q) =
  if Qle_bool q 0 then None
  else if Qle_bool q 15 then Some "0-15s"%string
  else if Qle_bool q 30 then Some "15-30s"%string
  else if Qle_bool q 45 then Some "30-45s"%string
  else if Qle_bool q 60 then Some "45-60s"%string
  else if Qle_bool q 100 then Some "60s+"%string
  else None.
Proof.
  unfold bucket_label, cut, duration_bins, duration_labels.
  cbn [searchsorted_left].
  destruct (Qle_bool q 0); [reflexivity|].
  destruct (Qle_bool q 15); [reflexivity|].
  destruct (Qle_bool q 30); [reflexivity|].
  destruct (Qle_bool q 45); [reflexivity|].
  destruct (Qle_bool q 60); [reflexivity|].
  destruct (Qle_bool q 100); reflexivity.
Qed.

Lemma cut_none_iff (q : Q) :
  cut duration_bins (Fin q) = None <-> q <= 0 \/ 100 < q.
Proof.
  unfold cut, duration_bins. cbn [searchsorted_left].
  split_edges; split; intros H; try discriminate; try reflexivity;
    try (left; lra); try (right; lra); try (destruct H; lra).
Qed.

Lemma duration_analysis_run (fsqrt : Q -> Q) (s : ShortformAnalyzer) :
  duration_analysis fsqrt s =
  (Ok (duration_stats_of fsqrt observed_default
         (combine (rows (merged s)) (duration_codes (rows (merged s))))),
   {| videos := videos s;
      creators := creators s;
      platforms := platforms s;
      merged := {| rows := rows (merged s);
                   duration_bin := Some (duration_codes (rows (merged s)));
                   cluster := cluster (merged s) |} |}).
Proof. reflexivity. Qed.

Lemma duration_stats_index (fsqrt : Q -> Q)
      (coded : list (MergedRow * option nat)) :
  index (duration_stats_of fsqrt observed_default coded)
  = map LStr duration_labels.
Proof.
  unfold index, duration_stats_of, groupby_categorical, observed_default.
  cbn [frame_rows]. rewrite !map_map. reflexivity.
Qed.

(** C9: [duration_analysis] writes, for every row, the code that [pd.cut]
    gives its duration_sec; the bins are the half-open intervals (0,15],
    (15,30], (30,45], (45,60], (60,100] with the labels 0-15s, 15-30s,
    30-45s, 45-60s, 60s+.  A duration of 15 is in 0-15s and a duration of
    15.0001 is in 15-30s. *)
Theorem duration_bins_half_open :
  (forall fsqrt s,
      duration_bin (merged (snd (duration_analysis fsqrt s)))
      = Some (map (fun r => cut duration_bins (duration_sec r))
                  (rows (merged s))))
  /\ (forall q,
         (bucket_label (Fin q) = Some "0-15s"%string <-> 0 < q /\ q <= 15)
         /\ (bucket_label (Fin q) = Some "15-30s"%string <-> 15 < q /\ q <= 30)
         /\ (bucket_label (Fin q) = Some "30-45s"%string <-> 30 < q /\ q <= 45)
         /\ (bucket_label (Fin q) = Some "45-60s"%string <-> 45 < q /\ q <= 60)
         /\ (bucket_label (Fin q) = Some "60s+"%string <-> 60 < q /\ q <= 100)
         /\ (bucket_label (Fin q) = None <-> q <= 0 \/ 100 < q))
  /\ bucket_label (Fin 15) = Some "0-15s"%string
  /\ bucket_label (Fin (150001 # 10000)) = Some "15-30s"%string.
Proof.
  split; [reflexivity|].
  split; [|split; reflexivity].
  intros q. rewrite bucket_label_cases.
  split_edges;
    repeat match goal with
           | |- _ /\ _ => split
           | |- _ <-> _ => split
           end;
    intros H; try discriminate; try reflexivity; try lra;
    try (left; lra); try (right; lra); try (destruct H; lra).
Qed.

Lemma In_combine_map {A B : Type} (f : A -> B) (l : list A) (a : A) (b : B) :
  In (a, b) (combine l (map f l)) -> b = f a.
Proof.
  induction l as [|x l IH]; cbn; [tauto|].
  intros [H|H]; [now inversion H|auto].
Qed.

(** C3 (as the code has it): a video of 120 seconds leaves the duration
    aggregate exactly as it is for a table without videos; there is no
    bucket for it. *)
Lemma long_video_vanishes :
  fst (duration_analysis Qsqrt (init long_video scenario_creators []))
  = fst (duration_analysis Qsqrt (init no_videos scenario_creators []))
  /\ exists f,
      fst (duration_analysis Qsqrt (init long_video scenario_creators []))
      = Ok f
      /\ index f = map LStr duration_labels
      /\ ~ In (LStr "unbucketed") (index f).
Proof.
  split; [vm_compute; reflexivity|].
  eexists. split; [reflexivity|].
  split; [vm_compute; reflexivity|].
  vm_compute. intuition discriminate.
Qed.

(** C3 (amended): a row whose duration_sec lies outside (0, 100] gets no
    bucket from [pd.cut]; it belongs to no group of the duration
    aggregate, and the aggregate has the five bucket labels as its index,
    none of them for unbucketed rows. *)
Theorem out_of_range_duration_dropped
        (fsqrt : Q -> Q) (s : ShortformAnalyzer) (r : MergedRow) (q : Q)
        (Hr : In r (rows (merged s)))
        (Hq : duration_sec r = Fin q)
        (Hout : q <= 0 \/ 100 < q) :
  cut duration_bins (duration_sec r) = None
  /\ (forall g,
         In g (groupby_categorical observed_default (length duration_labels)
                 snd (combine (rows (merged s))
                              (duration_codes (rows (merged s))))) ->
         ~ In r (map fst (snd g)))
  /\ exists f,
      fst (duration_analysis fsqrt s) = Ok f
      /\ index f = map LStr duration_labels
      /\ ~ In (LStr "unbucketed") (index f).
Proof.
  assert (Hcut : cut duration_bins (duration_sec r) = None)
    by (rewrite Hq; now apply cut_none_iff).
  split; [exact Hcut|]. split.
  - intros g Hg Hin.
    unfold groupby_categorical, observed_default in Hg.
    apply in_map_iff in Hg. destruct Hg as [c [<- _]].
    cbn [snd] in Hin.
    apply in_map_iff in Hin. destruct Hin as [[r' o] [Hfst Hin]].
    cbn in Hfst. subst r'.
    apply filter_In in Hin. destruct Hin as [Hin Hcode].
    unfold duration_codes in Hin. apply In_combine_map in Hin.
    cbn in Hcode. rewrite Hin, Hcut in Hcode. discriminate.
  - rewrite duration_analysis_run. eexists. split; [reflexivity|].
    rewrite duration_stats_index. split; [reflexivity|].
    cbn. intuition discriminate.
Qed.

Lemma out_of_range_duration_dropped_witness :
  cut duration_bins (Fin 120) = None.
Proof.
  refine (proj1 (out_of_range_duration_dropped Qsqrt
                   (init long_video scenario_creators [])
                   (prepare_row true (video "v1" "c1" "A" 120 100 10 0 0,
                                      Some Ann))
                   120 _ _ _)).
  - vm_compute. auto.
  - reflexivity.
  - right. reflexivity.
Defined.

(** ** Grouped aggregates *)

Section GroupByFacts.
Context {K R : Type}.
Variable eqb : K -> K -> bool.
Variable leb : K -> K -> bool.
Hypothesis eqb_eq : forall x y, eqb x y = true <-> x = y.

Lemma In_unique (l : list K) (x : K) : In x (unique eqb l) <-> In x l.
Proof.
  induction l as [|k t IH]; cbn; [tauto|].
  rewrite filter_In, IH, negb_true_iff. split.
  - intros [H|[H _]]; auto.
  - intros [H|H]; auto.
    destruct (eqb k x) eqn:E; auto.
    apply eqb_eq in E. auto.
Qed.

Lemma NoDup_unique (l : list K) : NoDup (unique eqb l).
Proof.
  induction l as [|k t IH]; cbn; constructor.
  - rewrite filter_In, negb_true_iff. intros [_ H].
    assert (E : eqb k k = true) by now apply eqb_eq.
    congruence.
  - now apply NoDup_filter.
Qed.

Lemma insert_key_perm (k : K) (l : list K) :
  Permutation (insert_key leb k l) (k :: l).
Proof.
  induction l as [|h t IH]; cbn; [reflexivity|].
  destruct (leb k h); [reflexivity|].
  rewrite IH. apply perm_swap.
Qed.

Lemma sort_keys_perm (l : list K) : Permutation (sort_keys leb l) l.
Proof.
  induction l as [|h t IH]; cbn; [reflexivity|].
  rewrite insert_key_perm. now constructor.
Qed.

Lemma In_dropna_keys (l : list (option K)) (k : K) :
  In k (dropna_keys l) <-> In (Some k) l.
Proof.
  unfold dropna_keys. rewrite in_flat_map. split.
  - intros [[k'|] [Hin Hk]]; cbn in Hk; [|tauto].
    destruct Hk as [->|[]]. exact Hin.
  - intros H. exists (Some k). cbn. auto.
Qed.

Lemma In_group_keys (key : R -> option K) (rs : list R) (k : K) :
  In k (group_keys eqb leb key rs) <-> exists r, In r rs /\ key r = Some k.
Proof.
  unfold group_keys. split.
  - intros H. apply (Permutation_in _ (sort_keys_perm _)) in H.
    apply In_unique, In_dropna_keys, in_map_iff in H.
    destruct H as [r [Hk Hr]]. eauto.
  - intros [r [Hr Hk]].
    apply (Permutation_in _ (Permutation_sym (sort_keys_perm _))).
    apply In_unique, In_dropna_keys, in_map_iff. eauto.
Qed.

Lemma NoDup_group_keys (key : R -> option K) (rs : list R) :
  NoDup (group_keys eqb leb key rs).
Proof.
  unfold group_keys.
  apply (Permutation_NoDup (Permutation_sym (sort_keys_perm _))).
  apply NoDup_unique.
Qed.

(** One group per distinct non-null key. *)
Lemma group_keys_length (dec : forall x y : K, {x = y} + {x <> y})
      (key : R -> option K) (rs : list R) :
  length (group_keys eqb leb key rs)
  = length (nodup dec (dropna_keys (map key rs))).
Proof.
  apply Permutation_length, NoDup_Permutation.
  - apply NoDup_group_keys.
  - apply NoDup_nodup.
  - intros k. rewrite nodup_In, In_group_keys, In_dropna_keys, in_map_iff.
    split; intros [r [H1 H2]]; eauto.
Qed.

Lemma groupby_keys (key : R -> option K) (rs : list R) :
  map fst (groupby eqb leb key rs) = group_keys eqb leb key rs.
Proof. unfold groupby. rewrite map_map. apply map_id. Qed.

(** No group is empty. *)
Lemma groupby_nonempty (key : R -> option K) (rs : list R) (g : K * list R) :
  In g (groupby eqb leb key rs) -> snd g <> [].
Proof.
  unfold groupby. rewrite in_map_iff. intros [k [<- Hk]].
  apply In_group_keys in Hk. destruct Hk as [r [Hr Hk]].
  cbn. intros E.
  assert (Hin : In r (group_rows eqb key rs k)).
  { apply filter_In. split; [exact Hr|]. rewrite Hk. now apply eqb_eq. }
  rewrite E in Hin. contradiction.
Qed.
End GroupByFacts.

Lemma pair_eqb_eq (a b : string * string) : pair_eqb a b = true <-> a = b.
Proof.
  destruct a as [a1 a2], b as [b1 b2]. unfold pair_eqb. cbn.
  rewrite andb_true_iff, !String.eqb_eq. split.
  - intros [-> ->]. reflexivity.
  - intros H. inversion H. auto.
Qed.

Lemma index_map_LStr {A : Type} (f : string * list A -> list cell)
      (l : list (string * list A)) :
  map fst (map (fun g => (LStr (fst g), f g)) l) = map LStr (map fst l).
Proof. rewrite !map_map. reflexivity. Qed.

Lemma In_map_LStr (k : string) (l : list string) :
  In (LStr k) (map LStr l) <-> In k l.
Proof.
  rewrite in_map_iff. split.
  - intros [x [E H]]. now inversion E; subst.
  - intros H. eauto.
Qed.

(** C2 (as the code has it): with one ten-second video the duration
    aggregate has five summary rows, though a single bucket occurs in the
    data; the row labelled 60s+ stands for a bucket that no row has. *)
Lemma duration_groups_not_only_observed :
  exists f,
    fst (duration_analysis Qsqrt (init short_video scenario_creators [])) = Ok f
    /\ frame_len f = 5%nat
    /\ length (nodup code_dec
                 (dropna_keys
                    (duration_codes
                       (_prepare_data short_video scenario_creators))))
       = 1%nat
    /\ In (LStr "60s+") (index f)
    /\ forall r, In r (_prepare_data short_video scenario_creators) ->
                 bucket_label (duration_sec r) <> Some "60s+"%string.
Proof.
  eexists. split; [reflexivity|].
  split; [reflexivity|]. split; [vm_compute; reflexivity|].
  split; [vm_compute; tauto|].
  intros r [<-|[]]. vm_compute. discriminate.
Qed.

(** C2 (amended): grouped by format_type, by niche or by
    (creator_name, niche), the aggregate has one summary row per distinct
    non-null key value present in the merged rows, and every summary key
    is the key of some row.  Grouped by duration bucket, the aggregate
    always has five summary rows, one per bucket label in the fixed order,
    whether or not a row falls in the bucket. *)
Theorem aggregate_row_counts (fsqrt : Q -> Q) (s : ShortformAnalyzer) :
  let rs := rows (merged s) in
  (exists f,
      fst (format_performance_analysis fsqrt s) = Ok f
      /\ frame_len f
         = length (nodup string_dec (dropna_keys (map format_type rs)))
      /\ forall k, In (LStr k) (index f)
                   <-> exists r, In r rs /\ format_type r = Some k)
  /\ (exists f,
         fst (niche_analysis fsqrt s) = Ok f
         /\ frame_len f
            = length (nodup string_dec (dropna_keys (map niche rs)))
         /\ forall k, In (LStr k) (index f)
                      <-> exists r, In r rs /\ niche r = Some k)
  /\ (length (creator_stats_of fsqrt rs)
      = length (nodup pair_dec (dropna_keys (map creator_key rs)))
      /\ forall k, In k (map fst (creator_stats_of fsqrt rs))
                   <-> exists r, In r rs /\ creator_key r = Some k)
  /\ (exists f,
         fst (duration_analysis fsqrt s) = Ok f
         /\ frame_len f = 5%nat
         /\ index f = map LStr duration_labels).
Proof.
  intros rs. repeat apply conj.
  - eexists. split; [reflexivity|]. split.
    + unfold frame_len, format_stats_of. cbn [frame_rows].
      rewrite length_map. unfold groupby. rewrite length_map.
      apply group_keys_length, String.eqb_eq.
    + intros k. unfold index, format_stats_of. cbn [frame_rows].
      rewrite index_map_LStr, In_map_LStr, groupby_keys.
      apply In_group_keys, String.eqb_eq.
  - eexists. split; [reflexivity|]. split.
    + unfold frame_len, niche_stats_of. cbn [frame_rows].
      rewrite length_map. unfold groupby. rewrite length_map.
      apply group_keys_length, String.eqb_eq.
    + intros k. unfold index, niche_stats_of. cbn [frame_rows].
      rewrite index_map_LStr, In_map_LStr, groupby_keys.
      apply In_group_keys, String.eqb_eq.
  - unfold creator_stats_of. rewrite length_map.
    unfold groupby. rewrite length_map.
    apply group_keys_length, pair_eqb_eq.
  - intros k. unfold creator_stats_of. rewrite map_map. cbn [fst].
    fold (map fst (groupby pair_eqb pair_leb creator_key rs)).
    rewrite (groupby_keys pair_eqb pair_leb).
    apply In_group_keys, pair_eqb_eq.
  - rewrite duration_analysis_run. eexists. split; [reflexivity|]. split.
    + unfold frame_len, duration_stats_of, groupby_categorical,
        observed_default.
      cbn [frame_rows]. rewrite !length_map. reflexivity.
    + apply duration_stats_index.
Qed.

(** With [observed = true] the duration grouping would list only the
    buckets that occur. *)
Lemma observed_groups_occur
      (coded : list (MergedRow * option nat)) (c : nat) :
  In c (map fst (groupby_categorical true (length duration_labels)
                   snd coded))
  <-> (c < length duration_labels)%nat
      /\ exists r, In (r, Some c) coded.
Proof.
  unfold groupby_categorical. rewrite map_map. cbn [fst].
  rewrite map_id, filter_In, in_seq, existsb_exists. split.
  - intros [Hc [[r o] [Hin Hcode]]]. split; [lia|].
    exists r. destruct o as [c'|]; cbn in Hcode; [|discriminate].
    apply Nat.eqb_eq in Hcode. now subst c'.
  - intros [Hc [r Hin]]. split; [lia|].
    exists (r, Some c). split; [exact Hin|]. cbn. apply Nat.eqb_refl.
Qed.

(** The end-to-end scenario: the two rows of format A, with views 100 and
    50, have mean views 75. *)
Example scenario_format_A_mean_views (fsqrt : Q -> Q) :
  exists f s mean_views,
    fst (format_performance_analysis fsqrt
           (init scenario_videos scenario_creators [])) = Ok f
    /\ frame_col f (LPair (LStr "views") (LStr "mean")) = Ok s
    /\ nth 0 s (LNaN, NaN) = (LStr "A", Fin mean_views)
    /\ mean_views == 75.
Proof.
  do 3 eexists. split; [reflexivity|].
  split; [vm_compute; reflexivity|].
  split; [vm_compute; reflexivity|]. reflexivity.
Qed.

(** ** Sorting facts *)

Section SortFacts.
Context {A : Type}.
Variable val : A -> fnum.

Lemma insert_desc_perm (a : A) (l : list A) :
  Permutation (insert_desc val a l) (a :: l).
Proof.
  induction l as [|h t IH]; cbn; [reflexivity|].
  destruct (fltb (val a) (val h)); [|reflexivity].
  rewrite IH. apply perm_swap.
Qed.

Lemma sort_desc_perm (l : list A) : Permutation (sort_desc val l) l.
Proof.
  induction l as [|h t IH]; cbn; [reflexivity|].
  rewrite insert_desc_perm. now constructor.
Qed.

Lemma filter_partition_perm (f : A -> bool) (l : list A) :
  Permutation (filter f l ++ filter (fun a => negb (f a)) l) l.
Proof.
  induction l as [|h t IH]; cbn; [reflexivity|].
  destruct (f h); cbn.
  - now constructor.
  - rewrite <- Permutation_middle. now constructor.
Qed.

Lemma sort_values_desc_perm (l : list A) :
  Permutation (sort_values_desc val l) l.
Proof.
  unfold sort_values_desc. rewrite sort_desc_perm.
  rewrite <- (filter_partition_perm (fun a => notna (val a)) l) at 3.
  apply Permutation_app_head.
  erewrite filter_ext; [reflexivity|].
  intros a. unfold notna. now rewrite negb_involutive.
Qed.

Lemma In_firstn (n : nat) (l : list A) (x : A) :
  In x (firstn n l) -> In x l.
Proof.
  intros H. rewrite <- (firstn_skipn n l). apply in_or_app. now left.
Qed.

Lemma In_head (n : Z) (l : list A) (x : A) : In x (head n l) -> In x l.
Proof.
  unfold head. destruct (0 <=? n)%Z; apply In_firstn.
Qed.
End SortFacts.

(** ** State effects of the analyses *)













Lemma performance_clustering_state
      (fsqrt : Q -> Q) (kmeans_labels : Z -> list (list fnum) -> list Z)
      (k : Z) (s : ShortformAnalyzer) :
  let out := performance_clustering fsqrt kmeans_labels k s in
  videos (snd out) = videos s
  /\ creators (snd out) = creators s
  /\ platforms (snd out) = platforms s
  /\ rows (merged (snd out)) = rows (merged s)
  /\ duration_bin (merged (snd out)) = duration_bin (merged s)
  /\ (snd out = s
      \/ exists f labels,
          fst out = Ok f /\ cluster (merged (snd out)) = Some labels).
Proof.
  unfold performance_clustering, bind, lift, ret, get_merged, assign_cluster,
    set_merged.
  cbn [fst snd].
  destruct (scaler_fit_transform _ _ _) as [X|e]; cbn [fst snd];
    [|repeat split; auto].
  destruct (kmeans_fit_predict _ _ _) as [labels|e]; cbn [fst snd];
    [|repeat split; auto].
  unfold bind, get_merged, lift. cbn [fst snd].
  destruct (Nat.eqb (length labels) (length (rows (merged s))));
    cbn [fst snd merged rows duration_bin cluster videos creators platforms];
    repeat split; try reflexivity; try (now left);
    right; do 2 eexists; split; reflexivity.
Qed.



(** ** Creator ranking *)

Lemma number_rows_index (l : list (list cell)) (x : label * list cell) :
  In x (number_rows l) -> exists i : nat, fst x = LInt (Z.of_nat i).
Proof.
  unfold number_rows. destruct x as [lab cells]. intros H.
  apply in_combine_l, in_map_iff in H. destruct H as [i [<- _]].
  now exists i.
Qed.

Lemma bind_ok {A B : Type} (m : M A) (k : A -> M B)
      (s : ShortformAnalyzer) (b : B) :
  fst (bind m k s) = Ok b ->
  exists a s', m s = (Ok a, s') /\ fst (k a s') = Ok b.
Proof.
  unfold bind. destruct (m s) as [[a|e] s']; cbn; [eauto|discriminate].
Qed.

Lemma lift_ok {A : Type} (r : result A) (s s' : ShortformAnalyzer) (a : A) :
  lift r s = (Ok a, s') -> r = Ok a /\ s' = s.
Proof. unfold lift. intros H. inversion H. auto. Qed.

(** The second sentence of the report comes from the first index entry of
    the creator ranking. *)
Lemma report_top_creator (fsqrt : Q -> Q) (s : ShortformAnalyzer)
      (insights : list string) :
  fst (generate_insights_report fsqrt s) = Ok insights ->
  let top_creators :=
    creator_ranking_of fsqrt (creators s) (rows (merged s)) 5 in
  nth 1 insights EmptyString
  = if (0 <? frame_len top_creators)%nat then
      let first := nth 0 (index top_creators) LNaN in
      (" **Top Creator**: "
         ++ (if is_str first then the_str first else py_str first)
         ++ " leads in retention rate")%string
    else " **Top Creator**: Analysis available in detailed report"%string.
Proof.
  unfold generate_insights_report. intros H.
  apply bind_ok in H. destruct H as (fs & s1 & E1 & H).
  inversion E1; subst fs s1; clear E1.
  apply bind_ok in H. destruct H as (rm & s1 & E1 & H).
  apply lift_ok in E1. destruct E1 as [_ ->].
  apply bind_ok in H. destruct H as (bf & s1 & E1 & H).
  apply lift_ok in E1. destruct E1 as [_ ->].
  apply bind_ok in H. destruct H as (tc & s1 & E1 & H).
  inversion E1; subst tc s1; clear E1.
  apply bind_ok in H. destruct H as (ns & s1 & E1 & H).
  inversion E1; subst ns s1; clear E1.
  apply bind_ok in H. destruct H as (em & s1 & E1 & H).
  apply lift_ok in E1. destruct E1 as [_ ->].
  apply bind_ok in H. destruct H as (bn & s1 & E1 & H).
  apply lift_ok in E1. destruct E1 as [_ ->].
  apply bind_ok in H. destruct H as (ds & s1 & E1 & H).
  apply bind_ok in H. destruct H as (ins & s2 & E2 & H).
  apply bind_ok in H. destruct H as (cm & s3 & E3 & H).
  cbn [ret fst] in H. inversion H; subst insights; clear H.
  assert (Hins : exists x y z, ins = (([x] ++ [
            if (0 <? frame_len
                       (creator_ranking_of fsqrt (creators s)
                          (rows (merged s)) 5))%nat
            then
              let first :=
                nth 0 (index (creator_ranking_of fsqrt (creators s)
                                (rows (merged s)) 5)) LNaN in
              (" **Top Creator**: "
                 ++ (if is_str first then the_str first else py_str first)
                 ++ " leads in retention rate")%string
            else " **Top Creator**: Analysis available in detailed report"%string])
            ++ [y]) ++ [z]).
  { destruct (negb (empty ds) && has_column ds (LStr "retention_rate")).
    - apply (f_equal fst) in E2. cbn [fst] in E2.
      apply bind_ok in E2. destruct E2 as (r & s4 & _ & E2).
      apply bind_ok in E2. destruct E2 as (o & s5 & _ & E2).
      cbn [ret fst] in E2. inversion E2. do 3 eexists. reflexivity.
    - cbn [ret fst] in E2. inversion E2. do 3 eexists. reflexivity. }
  destruct Hins as (x & y & z & ->). reflexivity.
Qed.

(** C10: [creator_performance_ranking] always returns; its table has
    creator_name as a column, and every index entry, the first one in
    particular, is an integer row position of the follower merge, not a
    string and not a (creator_name, niche) pair.  A report that returns
    therefore names that integer as the top creator. *)
Theorem creator_ranking_index_is_positional
        (fsqrt : Q -> Q) (top_n : Z) (s : ShortformAnalyzer) :
  exists f,
    creator_performance_ranking fsqrt top_n s = (Ok f, s)
    /\ columns f
       = map LStr ["creator_name"; "views"; "likes"; "shares";
                   "retention_rate"; "engagement_rate"; "hook_watch_rate";
                   "followers"]%string
    /\ (forall l, In l (index f) -> exists i : nat, l = LInt (Z.of_nat i))
    /\ (forall first rest,
           index f = first :: rest ->
           exists i : nat,
             first = LInt (Z.of_nat i)
             /\ is_str first = false
             /\ py_str first = Z_to_string (Z.of_nat i))
    /\ (forall insights,
           fst (generate_insights_report fsqrt s) = Ok insights ->
           nth 1 insights EmptyString
           = " **Top Creator**: Analysis available in detailed report"%string
           \/ exists i : nat,
               nth 1 insights EmptyString
               = (" **Top Creator**: " ++ Z_to_string (Z.of_nat i)
                    ++ " leads in retention rate")%string).
Proof.
  assert (Hidx : forall n l,
             In l (index (creator_ranking_of fsqrt (creators s)
                            (rows (merged s)) n)) ->
             exists i : nat, l = LInt (Z.of_nat i)).
  { intros n l Hl. unfold index, creator_ranking_of in Hl.
    cbn [frame_rows] in Hl.
    apply in_map_iff in Hl. destruct Hl as [x [<- Hx]].
    apply In_head in Hx.
    apply (Permutation_in _ (sort_values_desc_perm _ _)) in Hx.
    now apply number_rows_index in Hx. }
  eexists. split; [reflexivity|]. split; [reflexivity|].
  split; [apply Hidx|]. split.
  - intros first rest E.
    destruct (Hidx top_n first) as [i ->]; [rewrite E; now left|].
    exists i. repeat split.
  - intros insights H. apply report_top_creator in H. cbv zeta in H.
    rewrite H. clear H.
    set (tc := creator_ranking_of fsqrt (creators s) (rows (merged s)) 5).
    destruct (0 <? frame_len tc)%nat eqn:E; [right|now left].
    apply Nat.ltb_lt in E.
    destruct (Hidx 5%Z (nth 0 (index tc) LNaN)) as [i Hi].
    { apply nth_In. unfold index. rewrite length_map. exact E. }
    exists i. fold tc in Hi. rewrite Hi. reflexivity.
Qed.

(** ** Insights report *)

(** C4 (the code raises): on a table without videos the report raises at
    the first extraction, the arg-max over the empty format aggregate; on
    a table whose only video has no matching creator the niche aggregate
    is empty and the report raises at the niche extraction.  Neither
    extraction has a fallback, whatever square root is used. *)
Theorem report_raises_on_empty_aggregate (fsqrt : Q -> Q) :
  fst (generate_insights_report fsqrt (init no_videos scenario_creators []))
  = Raise (ValueError "attempt to get argmax of an empty sequence")
  /\ frame_len (niche_stats_of fsqrt
                  (rows (merged (init orphan_video scenario_creators []))))
     = 0%nat
  /\ fst (generate_insights_report fsqrt
            (init orphan_video scenario_creators []))
     = Raise (ValueError "attempt to get argmax of an empty sequence").
Proof.
  split; [reflexivity|]. split; [reflexivity|].
  vm_compute. reflexivity.
Qed.

(** ** Clustering *)

Lemma Qsquare_nonneg (a : Q) : 0 <= a * a.
Proof. nra. Qed.

Lemma isfinite_cell (x : fnum) : isfinite x = true <-> finite_cell x.
Proof.
  split.
  - destruct x; try discriminate. intros _. now exists q.
  - intros [q ->]. reflexivity.
Qed.

Lemma filter_notna_finite (l : list fnum) :
  Forall finite_cell l -> filter notna l = l.
Proof.
  induction 1 as [|x l [q ->] _ IH]; cbn; [reflexivity|]. now rewrite IH.
Qed.

Lemma fold_fadd_finite (l : list fnum) (a : Q) :
  Forall finite_cell l -> exists q, fold_left fadd l (Fin a) = Fin q.
Proof.
  intros H. revert a.
  induction H as [|x l [q ->] _ IH]; intros a; cbn; [eauto|apply IH].
Qed.

Lemma fold_fadd_nonneg (l : list fnum) (a : Q) :
  Forall (fun x => exists q, x = Fin q /\ 0 <= q) l -> 0 <= a ->
  exists q, fold_left fadd l (Fin a) = Fin q /\ 0 <= q.
Proof.
  intros H. revert a.
  induction H as [|x l [q [-> Hq]] _ IH]; intros a Ha; cbn; [eauto|].
  apply IH. lra.
Qed.

Lemma Qnat_pos (n : nat) : (0 < n)%nat -> 0 < Qnat n.
Proof.
  intros H. unfold Qnat, Qlt. cbn. lia.
Qed.

Lemma fmean_finite (l : list fnum) :
  Forall finite_cell l -> l <> [] -> finite_cell (fmean l).
Proof.
  intros H Hne. unfold fmean. rewrite filter_notna_finite by exact H.
  destruct l as [|x t]; [contradiction|].
  destruct (fold_fadd_finite (x :: t) 0 H) as [q Hq].
  unfold fsum. rewrite Hq. rewrite fdiv_nonzero.
  - now eexists.
  - intros E. pose proof (Qnat_pos (length (x :: t))) as Hp.
    cbn [length] in *. specialize (Hp ltac:(lia)). rewrite E in Hp.
    discriminate.
Qed.

Section ScalerFacts.
Variable fsqrt : Q -> Q.

Lemma scale_column_finite (col : list fnum) :
  Forall finite_cell col -> Forall finite_cell (scale_column fsqrt col).
Proof.
  intros H. destruct col as [|x t]; [constructor|].
  unfold scale_column.
  rewrite filter_notna_finite by exact H.
  destruct (fmean_finite (x :: t) H ltac:(discriminate)) as [m ->].
  set (sq := map (fun y => fmul (fsub y (Fin m)) (fsub y (Fin m))) (x :: t)).
  assert (Hsq : Forall (fun y => exists q, y = Fin q /\ 0 <= q) sq).
  { unfold sq. apply Forall_map.
    eapply Forall_impl; [|exact H].
      intros y [q ->]. cbn [fsub fneg fadd fmul].
    eexists. split; [reflexivity|]. apply Qsquare_nonneg. }
  destruct (fold_fadd_nonneg sq 0 Hsq (Qle_refl 0)) as [ss [Hss Hpos]].
  unfold fsum. rewrite Hss.
  pose proof (Qnat_pos (length (x :: t)) ltac:(cbn; lia)) as Hn.
  rewrite fdiv_nonzero by (intros F; rewrite F in Hn; discriminate).
  assert (Hv : 0 <= ss / Qnat (length (x :: t))).
  { apply Qle_shift_div_l; [exact Hn|lra]. }
  unfold fsqrt_cell, Qltb.
  apply Qle_bool_iff in Hv. rewrite Hv. cbn [negb].
  assert (Hscale : exists c,
             (if feqb (Fin (fsqrt (ss / Qnat (length (x :: t))))) (Fin 0)
              then Fin 1
              else Fin (fsqrt (ss / Qnat (length (x :: t))))) = Fin c
             /\ ~ c == 0).
  { destruct (feqb _ _) eqn:E.
    - exists 1. split; [reflexivity|]. intros F. discriminate.
    - eexists. split; [reflexivity|]. intros F.
      unfold feqb, fleb in E. rewrite andb_false_iff in E.
      destruct E as [E|E]; apply Qle_bool_false in E; rewrite F in E;
        discriminate. }
  destruct Hscale as [c [-> Hc]].
  apply Forall_map. eapply Forall_impl; [|exact H].
  intros y [q ->]. cbn [fsub fneg fadd]. rewrite fdiv_nonzero by exact Hc.
  now eexists.
Qed.

(** On a table with rows and finite features the scaler returns one
    scaled row per row, without NaN. *)
Lemma scaler_finite (rs : list MergedRow) :
  rs <> [] -> features_finite rs ->
  exists X,
    scaler_fit_transform fsqrt (length rs)
      (map (fun f => map (snd f) rs) features) = Ok X
    /\ length X = length rs
    /\ existsb (existsb isna) X = false.
Proof.
  intros Hne Hfin.
  assert (Hcols : Forall (Forall finite_cell)
                    (map (fun f : string * (MergedRow -> fnum) =>
                            map (snd f) rs) features)).
  { apply Forall_map, Forall_forall. intros f Hf.
    apply Forall_map, Forall_forall. intros r Hr.
    apply isfinite_cell. now apply Hfin. }
  unfold scaler_fit_transform.
  assert (Hinf : existsb (existsb is_inf)
                   (map (fun f : string * (MergedRow -> fnum) =>
                           map (snd f) rs) features) = false).
  { apply not_true_is_false. intros E.
    apply existsb_exists in E. destruct E as [col [Hcol E]].
    apply existsb_exists in E. destruct E as [x [Hx E]].
    rewrite Forall_forall in Hcols. specialize (Hcols col Hcol).
    rewrite Forall_forall in Hcols. destruct (Hcols x Hx) as [q ->].
    discriminate. }
  rewrite Hinf.
  destruct (Nat.eqb_spec (length rs) 0) as [E|_].
  { destruct rs; [contradiction|discriminate]. }
  eexists. split; [reflexivity|]. split.
  { now rewrite length_map, length_seq. }
  apply not_true_is_false. intros E.
  apply existsb_exists in E. destruct E as [row [Hrow E]].
  apply existsb_exists in E. destruct E as [x [Hx E]].
  apply in_map_iff in Hrow. destruct Hrow as [i [<- Hi]].
  apply in_seq in Hi.
  apply in_map_iff in Hx. destruct Hx as [c [<- Hc]].
  apply in_map_iff in Hc. destruct Hc as [col [<- Hcol]].
  rewrite Forall_forall in Hcols. specialize (Hcols col Hcol).
  pose proof (scale_column_finite col Hcols) as Hs.
  rewrite Forall_forall in Hs.
  destruct (Hs (nth i (scale_column fsqrt col) NaN)) as [q Hq].
  { apply nth_In. unfold scale_column. rewrite length_map.
    apply in_map_iff in Hcol. destruct Hcol as [f [<- _]].
    rewrite length_map. lia. }
  rewrite Hq in E. discriminate.
Qed.
End ScalerFacts.

Lemma string_append_assoc (a b c : string) :
  ((a ++ b) ++ c = a ++ (b ++ c))%string.
Proof. induction a as [|x a IH]; cbn; [reflexivity|now rewrite IH]. Qed.

(** C5 (as the code has it): two videos with the same counters make one
    distinct row; clustering them with k = 2 returns a summary and writes
    the cluster column, it does not fail. *)
Lemma clustering_accepts_k_above_distinct_rows :
  let s := init twin_videos scenario_creators [] in
  distinct_rows (feature_rows (rows (merged s))) = 1%nat
  /\ (exists f, fst (performance_clustering Qsqrt one_cluster 2 s) = Ok f)
  /\ cluster (merged (snd (performance_clustering Qsqrt one_cluster 2 s)))
     = Some [0%Z; 0%Z].
Proof.
  intros s. split; [vm_compute; reflexivity|].
  split; [eexists; vm_compute; reflexivity|].
  vm_compute. reflexivity.
Qed.

(** C5 (amended): on a table with at least one row and finite features, a
    clustering call whose k is below 1 or above the number of rows fails
    with an error whose message names n_clusters (InvalidParameterError
    when k < 1, ValueError when k exceeds the number of rows), and the
    analyzer is left unchanged, so no cluster assignment is written. *)
Theorem clustering_rejects_k_out_of_range
        (fsqrt : Q -> Q) (kmeans_labels : Z -> list (list fnum) -> list Z)
        (k : Z) (s : ShortformAnalyzer)
        (Hrows : rows (merged s) <> [])
        (Hfin : features_finite (rows (merged s)))
        (Hk : (k < 1 \/ Z.of_nat (length (rows (merged s))) < k)%Z) :
  exists e,
    performance_clustering fsqrt kmeans_labels k s = (Raise e, s)
    /\ names_parameter "n_clusters" (exn_message e)
    /\ ((k < 1)%Z -> exists msg, e = InvalidParameterError msg)
    /\ ((1 <= k)%Z -> exists msg, e = ValueError msg).
Proof.
  destruct (scaler_finite fsqrt (rows (merged s)) Hrows Hfin)
    as (X & HX & Hlen & Hnan).
  unfold performance_clustering, bind, lift, get_merged. cbn [fst snd].
  rewrite HX. unfold kmeans_fit_predict.
  destruct (Z.ltb_spec k 1) as [Hlt|Hge].
  - eexists. split; [reflexivity|]. split.
    + exists "The '"%string. eexists. cbn. reflexivity.
    + split; [eauto|]. intros. lia.
  - destruct Hk as [Hk|Hk]; [lia|].
    rewrite Hnan, Hlen.
    destruct (Z.ltb_spec (Z.of_nat (length (rows (merged s)))) k); [|lia].
    eexists. split; [reflexivity|]. split.
    + exists ("n_samples="
                ++ Z_to_string (Z.of_nat (length (rows (merged s))))
                ++ " should be >= ")%string.
      exists ("=" ++ Z_to_string k ++ ".")%string.
      cbn [exn_message]. rewrite !string_append_assoc. reflexivity.
    + split; [intros; lia|eauto].
Qed.

Lemma clustering_rejects_k_out_of_range_witness :
  exists e,
    performance_clustering Qsqrt one_cluster 0
      (init twin_videos scenario_creators [])
    = (Raise e, init twin_videos scenario_creators [])
    /\ names_parameter "n_clusters" (exn_message e).
Proof.
  destruct (clustering_rejects_k_out_of_range Qsqrt one_cluster 0
              (init twin_videos scenario_creators []))
    as (e & H1 & H2 & _).
  - vm_compute. discriminate.
  - intros r f Hr Hf. vm_compute in Hr, Hf.
    repeat (destruct Hr as [<-|Hr]; [|]);
      repeat (destruct Hf as [<-|Hf]; try reflexivity); contradiction.
  - left. reflexivity.
  - exists e. split; assumption.
Defined.

(** ** Ranking *)



Lemma fltb_notna (x y : fnum) :
  fltb x y = true -> isna x = false /\ isna y = false.
Proof.
  unfold fltb. destruct x, y; cbn; try discriminate; auto.
Qed.













(** Of three videos with views 50, 100, 50 the top two are the second and
    the first: the tie between the first and the third goes to the
    earlier row. *)
Example top_two_of_tied_videos :
  exists f,
    fst (top_performers_analysis "views" 2
           (init tied_videos scenario_creators [])) = Ok f
    /\ index f = [LInt 1; LInt 0].
Proof. eexists. split; vm_compute; reflexivity. Qed.

(** ** Correlation matrix *)




Section MomentAlgebra.
Variables n m a : Q.
Hypothesis Hn : 0 <= n.








End MomentAlgebra.













Section PearsonFacts.
Variable fsqrt : Q -> Q.
Hypothesis fsqrt_square : forall a, 0 <= a -> fsqrt (a * a) == a.
Hypothesis fsqrt_zero : forall a, a == 0 -> fsqrt a == 0.







End PearsonFacts.




(** ** Join of videos and creators *)

Lemma merge_left_fst_incl (vs : list Video.t) (cs : list Creator.t)
      (v : Video.t) :
  In v vs -> exists c, In (v, c) (merge_left vs cs).
Proof.
  intros Hv. unfold merge_left.
  destruct (filter (fun c => String.eqb (Creator.creator_id c)
                                        (Video.creator_id v)) cs)
    as [|c0 l] eqn:E.
  - exists None. apply in_flat_map. exists v. split; [exact Hv|].
    rewrite E. now left.
  - exists (Some c0). apply in_flat_map. exists v. split; [exact Hv|].
    rewrite E. now left.
Qed.

Lemma flat_map_length_ge {A B : Type} (f : A -> list B) (l : list A) :
  (forall a, f a <> []) -> (length l <= length (flat_map f l))%nat.
Proof.
  intros Hf. induction l as [|a l IH]; [apply Nat.le_refl|].
  change (flat_map f (a :: l)) with (f a ++ flat_map f l).
  rewrite length_app. specialize (Hf a).
  destruct (f a); [contradiction|]. cbn [length]. lia.
Qed.

Lemma merge_left_length (vs : list Video.t) (cs : list Creator.t) :
  (length vs <= length (merge_left vs cs))%nat.
Proof.
  apply flat_map_length_ge. intros v.
  destruct (filter _ cs); discriminate.
Qed.



Lemma prepare_row_video (b : bool) (v : Video.t) (c : option Creator.t) :
  let r := prepare_row b (v, c) in
  video_id r = Video.video_id v
  /\ creator_id r = Video.creator_id v
  /\ format_type r = Video.format_type v
  /\ duration_sec r = Video.duration_sec v
  /\ views r = Video.views v
  /\ likes r = Video.likes v
  /\ comments r = Video.comments v
  /\ shares r = Video.shares v
  /\ watch_time r = Video.watch_time v
  /\ full_views r = Video.full_views v
  /\ hook_watch_rate r = Video.hook_watch_rate v.
Proof.
  unfold prepare_row. destruct (creator_columns c) as [[cn ni] fo].
  cbn. repeat split.
Qed.


(** X2: in every merged row the creator columns are those of a creator of
    the creators table with the row's creator_id, or, when no creator has
    that id, creator_name and niche are null and followers is NaN. *)
Theorem join_creator_columns (vt : VideoTable) (cs : list Creator.t)
        (r : MergedRow) (Hr : In r (_prepare_data vt cs)) :
  (exists c, In c cs
             /\ Creator.creator_id c = creator_id r
             /\ creator_name r = Creator.creator_name c
             /\ niche r = Creator.niche c
             /\ followers r = Creator.followers c)
  \/ ((forall c, In c cs -> Creator.creator_id c <> creator_id r)
      /\ creator_name r = None
      /\ niche r = None
      /\ followers r = NaN).
Proof.
  unfold _prepare_data in Hr. apply in_map_iff in Hr.
  destruct Hr as [[v c] [<- Hin]].
  unfold merge_left in Hin. apply in_flat_map in Hin.
  destruct Hin as [v' [_ Hin]].
  destruct (filter (fun c0 => String.eqb (Creator.creator_id c0)
                                         (Video.creator_id v')) cs)
    as [|c0 l] eqn:E.
  - destruct Hin as [Hin|[]]. inversion Hin; subst v' c. right.
    split; [|cbn; auto].
    intros c1 Hc1 Heq. cbn in Heq.
    assert (Hf : In c1 (filter (fun c0 => String.eqb (Creator.creator_id c0)
                                                     (Video.creator_id v)) cs))
      by (apply filter_In; split; [exact Hc1|now apply String.eqb_eq]).
    rewrite E in Hf. contradiction.
  - apply in_map_iff in Hin. destruct Hin as [c1 [Hin Hc1]].
    inversion Hin; subst v' c. left. exists c1.
    rewrite <- E in Hc1. apply filter_In in Hc1. destruct Hc1 as [Hc1 Heq].
    apply String.eqb_eq in Heq. cbn. auto.
Qed.

Lemma join_creator_columns_witness :
  exists c, In c scenario_creators /\ Creator.creator_name c = Some "Ann"%string.
Proof.
  destruct (join_creator_columns scenario_videos scenario_creators
              (prepare_row true (video "v1" "c1" "A" 10 100 10 0 0, Some Ann)))
    as [(c & Hc & _ & Hn & _)|(Hno & _)].
  - vm_compute. auto.
  - exists c. split; [exact Hc|]. now rewrite <- Hn.
  - exfalso. apply (Hno Ann); [now left|reflexivity].
Defined.

(** X3: the analyzer recomputes the four derived ratios to the values the
    loader's derived-metric step gives the same video: every merged row
    has a loader row with the same video_id and the same engagement_rate,
    avg_watch_time_per_view, like_to_view_ratio and share_to_view_ratio. *)
Theorem analyzer_agrees_with_loader (vt : VideoTable) (cs : list Creator.t)
        (r : MergedRow) (Hr : In r (_prepare_data vt cs)) :
  exists v d,
    In (v, d) (calculate_derived_metrics (video_rows vt))
    /\ video_id r = Video.video_id v
    /\ engagement_rate r = d_engagement_rate d
    /\ avg_watch_time_per_view r = d_avg_watch_time_per_view d
    /\ like_to_view_ratio r = d_like_to_view_ratio d
    /\ share_to_view_ratio r = d_share_to_view_ratio d.
Proof.
  apply In_prepare_data in Hr. destruct Hr as [v [c [Hv ->]]].
  eexists v, _. split.
  - unfold calculate_derived_metrics. apply in_map_iff.
    exists v. split; [reflexivity|exact Hv].
  - unfold prepare_row. destruct (creator_columns c) as [[cn ni] fo].
    cbn. repeat split.
Qed.

Lemma analyzer_agrees_with_loader_witness :
  exists v d,
    In (v, d) (calculate_derived_metrics (video_rows scenario_videos))
    /\ d_like_to_view_ratio d = PInf.
Proof.
  destruct (analyzer_agrees_with_loader scenario_videos scenario_creators
              (prepare_row true (video "v2" "c1" "B" 20 0 5 0 0, Some Ann)))
    as (v & d & Hin & _ & _ & _ & Hl & _).
  - vm_compute. auto.
  - exists v, d. split; [exact Hin|]. now rewrite <- Hl.
Defined.

(** ** Validation *)

Lemma filter_length_zero {A : Type} (p : A -> bool) (l : list A) :
  length (filter p l) = 0%nat <-> forall x, In x l -> p x = false.
Proof.
  induction l as [|a l IH]; cbn; [tauto|].
  destruct (p a) eqn:E; cbn; split.
  - discriminate.
  - intros H. specialize (H a (or_introl eq_refl)). congruence.
  - intros H x [<-|Hx]; [exact E|]. now apply IH.
  - intros H. apply IH. auto.
Qed.

Lemma filter_map_length_zero {A B : Type} (f : A -> B) (p : B -> bool)
      (l : list A) :
  length (filter p (map f l)) = 0%nat <-> forall x, In x l -> p (f x) = false.
Proof.
  rewrite filter_length_zero. split.
  - intros H x Hx. apply H. now apply in_map.
  - intros H y Hy. apply in_map_iff in Hy. destruct Hy as [x [<- Hx]]. auto.
Qed.

Lemma list_sum_zero (l : list nat) :
  list_sum l = 0%nat <-> forall n, In n l -> n = 0%nat.
Proof.
  induction l as [|a l IH]; [cbn; tauto|].
  change (list_sum (a :: l)) with (a + list_sum l)%nat. cbn [In]. split.
  - intros H n [<-|Hn]; [lia|].
    assert (E : list_sum l = 0%nat) by lia.
    exact (proj1 IH E n Hn).
  - intros H. rewrite (H a (or_introl eq_refl)).
    apply (proj2 IH). auto.
Qed.

Lemma missing_issue_nil (name : string) (m : list (string * nat)) :
  missing_issue name m = [] <-> list_sum (map snd m) = 0%nat.
Proof.
  unfold missing_issue.
  destruct (Nat.ltb_spec 0 (list_sum (map snd m))); split;
    intros; try discriminate; try reflexivity; lia.
Qed.

Lemma has_duplicates_false (l : list string) :
  has_duplicates l = false <-> NoDup l.
Proof.
  induction l as [|x l IH]; cbn.
  - split; [constructor|reflexivity].
  - rewrite orb_false_iff, IH. split.
    + intros [H1 H2]. constructor; [|exact H2].
      intros Hin. apply not_true_iff_false in H1. apply H1.
      apply existsb_exists. exists x. split; [exact Hin|apply String.eqb_refl].
    + intros H. inversion H as [|? ? Hnotin Hnd]; subst. split; [|exact Hnd].
      apply not_true_iff_false. intros E. apply existsb_exists in E.
      destruct E as [y [Hy E]]. apply String.eqb_eq in E. now subst y.
Qed.

Lemma existsb_false {A : Type} (p : A -> bool) (l : list A) :
  existsb p l = false <-> forall x, In x l -> p x = false.
Proof.
  split.
  - intros H x Hx. apply not_true_iff_false. intros E.
    apply not_true_iff_false in H. apply H, existsb_exists. eauto.
  - intros H. apply not_true_iff_false. intros E.
    apply existsb_exists in E. destruct E as [x [Hx E]].
    rewrite (H x Hx) in E. discriminate.
Qed.

Lemma is_none_false {A : Type} (o : option A) : is_none o = false <-> o <> None.
Proof. destruct o; cbn; split; congruence. Qed.

Lemma missing_zero (m : list (string * nat)) :
  list_sum (map snd m) = 0%nat <-> forall c, In c m -> snd c = 0%nat.
Proof.
  rewrite list_sum_zero. split.
  - intros H c Hc. apply H. now apply in_map.
  - intros H n Hn. apply in_map_iff in Hn. destruct Hn as [c [<- Hc]]. auto.
Qed.

Lemma videos_missing_zero (vt : VideoTable) :
  list_sum (map snd (videos_missing vt)) = 0%nat
  <-> forall v, In v (video_rows vt) -> clean_video (has_retention_rate vt) v.
Proof.
  rewrite missing_zero. split.
  - intros H v Hv.
    assert (G : forall name n, In (name, n) (videos_missing vt) -> n = 0%nat)
      by (intros name n Hin; apply (H _ Hin)).
    unfold clean_video.
    repeat match goal with |- _ /\ _ => split end;
      match goal with
      | |- isna (?f v) = false =>
          apply (proj1 (filter_map_length_zero f isna (video_rows vt))); [|exact Hv]
      | |- ?f v <> None =>
          apply is_none_false;
          apply (proj1 (filter_map_length_zero f is_none (video_rows vt))); [|exact Hv]
      | |- _ = true -> isna (?f v) = false =>
          intros Hret;
          apply (proj1 (filter_map_length_zero f isna (video_rows vt))); [|exact Hv]
      end;
      (eapply G; unfold videos_missing; rewrite !in_app_iff;
       try rewrite Hret; cbn [In]; auto 20).
  - intros H c Hc. unfold videos_missing in Hc.
    rewrite !in_app_iff in Hc.
    assert (Hret : has_retention_rate vt = true
                   \/ has_retention_rate vt = false)
      by (destruct (has_retention_rate vt); auto).
    destruct Hret as [Hret|Hret]; rewrite Hret in Hc; cbn [In] in Hc;
      decompose [or] Hc; clear Hc; try contradiction; subst c; cbn [snd];
      try reflexivity;
      apply filter_map_length_zero; intros v Hv;
      specialize (H v Hv); unfold clean_video in H;
      try apply is_none_false; tauto.
Qed.

Lemma creators_missing_zero (cs : list Creator.t) :
  list_sum (map snd (creators_missing cs)) = 0%nat
  <-> forall c, In c cs -> clean_creator c.
Proof.
  rewrite missing_zero. split.
  - intros H c Hc.
    assert (G : forall name n, In (name, n) (creators_missing cs) -> n = 0%nat)
      by (intros name n Hin; apply (H _ Hin)).
    unfold clean_creator.
    repeat match goal with |- _ /\ _ => split end;
      match goal with
      | |- isna (?f c) = false =>
          apply (proj1 (filter_map_length_zero f isna cs)); [|exact Hc]
      | |- ?f c <> None =>
          apply is_none_false;
          apply (proj1 (filter_map_length_zero f is_none cs)); [|exact Hc]
      end;
      (eapply G; unfold creators_missing; cbn [In]; auto 20).
  - intros H c Hc. unfold creators_missing in Hc. cbn [In] in Hc.
    decompose [or] Hc; clear Hc; try contradiction; subst c; cbn [snd];
      try reflexivity;
      apply filter_map_length_zero; intros x Hx;
      specialize (H x Hx); unfold clean_creator in H;
      try apply is_none_false; tauto.
Qed.

Lemma platforms_missing_zero (pt : PlatformTable) :
  list_sum (map snd (platforms_missing pt)) = 0%nat <-> clean_platforms pt.
Proof.
  rewrite missing_zero. unfold platforms_missing, clean_platforms. split.
  - intros H row j Hrow Hj.
    apply is_none_false.
    destruct (nth_error (platform_columns pt) j) as [name|] eqn:E.
    2:{ apply nth_error_None in E. lia. }
    specialize (H (name, length (filter (fun row => is_none (nth j row None))
                                        (platform_rows pt)))).
    cbn [snd] in H.
    apply (proj1 (filter_length_zero
                    (fun row => is_none (nth j row None))
                    (platform_rows pt))); [|exact Hrow].
    apply H. apply in_map_iff. exists (j, name). split; [reflexivity|].
    assert (G : forall a l, nth_error l (j - a) = Some name -> (a <= j)%nat ->
                            In (j, name) (combine (seq a (length l)) l)).
    { intros a l. revert a. induction l as [|x l IH]; intros a Hn Ha.
      - destruct (j - a)%nat; discriminate.
      - cbn [length seq combine].
        destruct (Nat.eq_dec a j) as [->|Hne].
        + rewrite Nat.sub_diag in Hn. cbn in Hn. inversion Hn. now left.
        + right. apply IH; [|lia].
          replace (j - a)%nat with (S (j - S a)) in Hn by lia. exact Hn. }
    apply G; [now rewrite Nat.sub_0_r|lia].
  - intros H c Hc. apply in_map_iff in Hc. destruct Hc as [[j name] [<- Hin]].
    cbn [fst snd]. apply filter_length_zero. intros row Hrow.
    apply is_none_false. apply H; [exact Hrow|].
    apply in_combine_l, in_seq in Hin. lia.
Qed.

Lemma flat_map_nil_iff {A B : Type} (f : A -> list B) (l : list A) :
  flat_map f l = [] <-> forall a, In a l -> f a = [].
Proof.
  induction l as [|x l IH]; cbn [flat_map In]; [tauto|].
  split.
  - intros H. apply app_eq_nil in H. destruct H as [H1 H2].
    intros a [<-|Ha]; [exact H1|]. now apply IH.
  - intros H. rewrite (H x (or_introl eq_refl)). apply IH. auto.
Qed.

Lemma app_nil_iff {A : Type} (l l' : list A) :
  l ++ l' = [] <-> l = [] /\ l' = [].
Proof.
  split; [apply app_eq_nil|]. intros [-> ->]. reflexivity.
Qed.

Lemma duplicate_issue_nil (ids : list string) :
  (if has_duplicates ids then [DuplicateVideoIds] else []) = []
  <-> NoDup ids.
Proof.
  rewrite <- has_duplicates_false.
  destruct (has_duplicates ids); split; congruence.
Qed.

Lemma retention_issue_nil (vt : VideoTable) :
  (if has_retention_rate vt
      && existsb (fun v => fltb (Fin 1) (Video.retention_rate v))
                 (video_rows vt)
   then [InvalidRetentionRates] else []) = []
  <-> (has_retention_rate vt = true ->
       forall v, In v (video_rows vt) ->
                 fltb (Fin 1) (Video.retention_rate v) = false).
Proof.
  destruct (has_retention_rate vt); cbn [andb].
  - rewrite <- existsb_false.
    destruct (existsb _ _); split; intros H; try congruence;
      try reflexivity; try discriminate.
    specialize (H eq_refl). discriminate.
  - split; [discriminate|reflexivity].
Qed.

Lemma negative_issue_nil (vs : list Video.t) :
  flat_map (fun c : string * (Video.t -> fnum) =>
              if existsb (fun v => fltb (snd c v) (Fin 0)) vs
              then [NegativeValues (fst c)] else [])
           counter_cols = []
  <-> (forall v c, In v vs -> In c counter_cols ->
                   fltb (snd c v) (Fin 0) = false).
Proof.
  rewrite flat_map_nil_iff. split.
  - intros H v c Hv Hc. specialize (H c Hc).
    apply (proj1 (existsb_false (fun v => fltb (snd c v) (Fin 0)) vs));
      [|exact Hv].
    destruct (existsb (fun v => fltb (snd c v) (Fin 0)) vs);
      [discriminate|reflexivity].
  - intros H c Hc.
    assert (E : existsb (fun v => fltb (snd c v) (Fin 0)) vs = false)
      by (apply existsb_false; intros v Hv; now apply H).
    now rewrite E.
Qed.


(** X4: [validate_data] returns True exactly when the loaded frames have
    no null cell, no video_id occurs twice, no retention_rate exceeds 1
    (checked only when the column exists) and none of the six counters is
    negative.  Nothing else is checked: a negative retention_rate or
    duration, a repeated creator_id or a zero view count pass. *)
Theorem validate_data_iff_clean (d : LoadedData) :
  validate_data d = true <-> clean_tables d.
Proof.
  unfold validate_data, clean_tables, validation_issues.
  rewrite Nat.eqb_eq, length_zero_iff_nil.
  rewrite !app_nil_iff, !missing_issue_nil.
  rewrite videos_missing_zero, creators_missing_zero, platforms_missing_zero.
  rewrite duplicate_issue_nil, retention_issue_nil, negative_issue_nil.
  cbv zeta. tauto.
Qed.










(** ** Data summary *)

Lemma merged_format_types (vt : VideoTable) (cs : list Creator.t)
      (k : string) :
  (exists r, In r (_prepare_data vt cs) /\ format_type r = Some k)
  <-> In (Some k) (map Video.format_type (video_rows vt)).
Proof.
  rewrite in_map_iff. split.
  - intros [r [Hr Hk]]. apply In_prepare_data in Hr.
    destruct Hr as [v [c [Hv ->]]]. exists v. split; [|exact Hv].
    rewrite <- Hk. symmetry.
    apply (prepare_row_video (has_retention_rate vt) v c).
  - intros [v [Hk Hv]].
    destruct (merge_left_fst_incl (video_rows vt) cs v Hv) as [c Hc].
    exists (prepare_row (has_retention_rate vt) (v, c)). split.
    + unfold _prepare_data. now apply in_map.
    + rewrite <- Hk.
      apply (prepare_row_video (has_retention_rate vt) v c).
Qed.

Lemma merged_niche_from_creator (vt : VideoTable) (cs : list Creator.t)
      (r : MergedRow) (k : string) :
  In r (_prepare_data vt cs) -> niche r = Some k ->
  In (Some k) (map Creator.niche cs).
Proof.
  intros Hr Hk. unfold _prepare_data in Hr. apply in_map_iff in Hr.
  destruct Hr as [[v c] [<- Hin]].
  unfold merge_left in Hin. apply in_flat_map in Hin.
  destruct Hin as [v' [_ Hin]].
  destruct (filter (fun c0 => String.eqb (Creator.creator_id c0)
                                         (Video.creator_id v')) cs)
    as [|c0 l] eqn:E.
  - destruct Hin as [Hin|[]]. inversion Hin; subst. discriminate.
  - apply in_map_iff in Hin. destruct Hin as [c1 [Hin Hc1]].
    inversion Hin; subst v' c. rewrite <- E in Hc1.
    apply filter_In in Hc1. destruct Hc1 as [Hc1 _].
    cbn in Hk. rewrite <- Hk. now apply in_map.
Qed.

(** X6: the summary agrees with the aggregates of an analyzer built on the
    same frames: format_types is the number of rows of the format
    aggregate, creator_niches is at least the number of rows of the niche
    aggregate (niches of creators without videos have no group), and
    total_videos is at most the number of merged rows. *)
Theorem summary_matches_aggregates
        (fsqrt : Q -> Q) (d : LoadedData) (platforms_df : list (list string)) :
  let s := init (loaded_videos d) (loaded_creators d) platforms_df in
  (exists f, fst (format_performance_analysis fsqrt s) = Ok f
             /\ frame_len f = format_types (get_data_summary d))
  /\ (exists f, fst (niche_analysis fsqrt s) = Ok f
                /\ (frame_len f <= creator_niches (get_data_summary d))%nat)
  /\ (total_videos (get_data_summary d) <= length (rows (merged s)))%nat.
Proof.
  intros s. split; [|split].
  - eexists. split; [reflexivity|].
    unfold frame_len, format_stats_of. cbn [frame_rows].
    rewrite length_map. unfold groupby. rewrite length_map.
    cbn [get_data_summary format_types]. unfold nunique.
    apply Permutation_length, NoDup_Permutation.
    + apply NoDup_group_keys, String.eqb_eq.
    + apply NoDup_unique, String.eqb_eq.
    + intros k.
      rewrite (In_group_keys String.eqb String.leb String.eqb_eq).
      rewrite (In_unique String.eqb String.leb String.eqb_eq),
        (In_dropna_keys String.eqb).
      exact (merged_format_types (loaded_videos d) (loaded_creators d) k).
  - eexists. split; [reflexivity|].
    unfold frame_len, niche_stats_of. cbn [frame_rows].
    rewrite length_map. unfold groupby. rewrite length_map.
    cbn [get_data_summary creator_niches]. unfold nunique.
    apply NoDup_incl_length.
    + apply NoDup_group_keys, String.eqb_eq.
    + intros k Hk.
      apply (In_group_keys String.eqb String.leb String.eqb_eq) in Hk.
      destruct Hk as [r [Hr Hk]].
      apply (In_unique String.eqb String.leb String.eqb_eq),
        (In_dropna_keys String.eqb).
      exact (merged_niche_from_creator (loaded_videos d) (loaded_creators d)
               r k Hr Hk).
  - cbn. unfold _prepare_data. rewrite length_map. apply merge_left_length.
Qed.

(** ** The insights report, step by step *)

Section ReportFacts.
Variable fsqrt : Q -> Q.

Lemma frame_col_format (rs : list MergedRow) :
  frame_col (format_stats_of fsqrt rs)
            (LPair (LStr "retention_rate") (LStr "mean"))
  = Ok (column_series 8 (format_stats_of fsqrt rs)).
Proof. reflexivity. Qed.

Lemma frame_col_niche (rs : list MergedRow) :
  frame_col (niche_stats_of fsqrt rs) (LStr "engagement_rate_mean")
  = Ok (column_series 5 (niche_stats_of fsqrt rs)).
Proof. reflexivity. Qed.

Lemma frame_col_duration (coded : list (MergedRow * option nat)) :
  frame_col (duration_stats_of fsqrt observed_default coded)
            (LStr "retention_rate")
  = Ok (column_series 1 (duration_stats_of fsqrt observed_default coded)).
Proof. reflexivity. Qed.

Lemma duration_guard (coded : list (MergedRow * option nat)) :
  negb (empty (duration_stats_of fsqrt observed_default coded))
  && has_column (duration_stats_of fsqrt observed_default coded)
                (LStr "retention_rate") = true.
Proof. reflexivity. Qed.

Lemma correlation_guard (rs : list MergedRow) :
  (2 <? length (sort_values_desc snd (unstack (corr_matrix_of fsqrt rs))))%nat
  = true.
Proof.
  rewrite (Permutation_length (sort_values_desc_perm snd _)).
  reflexivity.
Qed.

Lemma report_eval (s : ShortformAnalyzer) (best_format best_niche : label) :
  let rs := rows (merged s) in
  idxmax (column_series 8 (format_stats_of fsqrt rs)) = Ok best_format ->
  idxmax (column_series 5 (niche_stats_of fsqrt rs)) = Ok best_niche ->
  generate_insights_report fsqrt s
  = (match idxmax (column_series 1
                     (duration_stats_of fsqrt observed_default
                        (combine rs (duration_codes rs)))) with
     | Ok optimal_duration =>
         let top_creators :=
           creator_ranking_of fsqrt (creators s) rs 5 in
         let first := nth 0 (index top_creators) LNaN in
         let highest_corr :=
           sort_values_desc snd (unstack (corr_matrix_of fsqrt rs)) in
         Ok (report_sentences
               (py_str best_format)
               (if is_str first then the_str first else py_str first)
               (py_str best_niche)
               (py_str optimal_duration)
               (py_str (fst (nth 1 highest_corr (LNaN, NaN))))
               (py_str (fst (nth 2 highest_corr (LNaN, NaN))))
               (0 <? frame_len top_creators)%nat)
     | Raise e => Raise e
     end,
     snd (duration_analysis fsqrt s)).
Proof.
  intros rs Hf Hn.
  unfold generate_insights_report, format_performance_analysis,
    creator_performance_ranking, niche_analysis, correlation_analysis.
  unfold bind, lift, ret, get_merged, get_self.
  cbn [fst snd]. fold rs.
  rewrite frame_col_format, Hf, frame_col_niche, Hn.
  rewrite duration_analysis_run. cbn [fst snd merged rows]. fold rs.
  rewrite duration_guard, frame_col_duration.
  destruct (idxmax (column_series 1 _)) as [od|e]; [|reflexivity].
  rewrite correlation_guard. reflexivity.
Qed.
End ReportFacts.

Lemma argmax_from_In (s : Series) (best : option (label * fnum))
      (l : label) (x : fnum) :
  argmax_from best s = Some (l, x) -> best = Some (l, x) \/ In (l, x) s.
Proof.
  revert best. induction s as [|[l0 x0] s IH]; intros best H; cbn in H.
  - now left.
  - destruct (isna x0).
    + destruct (IH _ H); auto. right. now right.
    + destruct best as [[lb xb]|].
      * destruct (fltb xb x0).
        -- destruct (IH _ H) as [E|Hin]; [|right; now right].
           inversion E; subst. right. now left.
        -- destruct (IH _ H); auto. right. now right.
      * destruct (IH _ H) as [E|Hin]; [|right; now right].
        inversion E; subst. right. now left.
Qed.

Lemma idxmax_nonempty (s : Series) :
  s <> [] ->
  exists l, idxmax s = Ok l /\ (l = LNaN \/ In l (map fst s)).
Proof.
  intros Hs. destruct s as [|p s]; [contradiction|].
  unfold idxmax.
  destruct (argmax_from None (p :: s)) as [[l x]|] eqn:E.
  - exists l. split; [reflexivity|]. right.
    apply argmax_from_In in E. destruct E as [E|E]; [discriminate|].
    apply (in_map fst) in E. exact E.
  - exists LNaN. split; [reflexivity|now left].
Qed.

Lemma idxmax_raise (s : Series) (e : exn) :
  idxmax s = Raise e ->
  s = [] /\ e = ValueError "attempt to get argmax of an empty sequence".
Proof.
  destruct s; cbn; intros H; inversion H. split; reflexivity.
Qed.

Lemma column_series_nil (i : nat) (f : Frame) :
  column_series i f = [] <-> frame_rows f = [].
Proof.
  unfold column_series. destruct (frame_rows f); cbn; split; congruence.
Qed.

Lemma column_series_index (i : nat) (f : Frame) :
  map fst (column_series i f) = index f.
Proof. unfold column_series, index. now rewrite map_map. Qed.

Section ReportOutcome.
Variable fsqrt : Q -> Q.

Lemma format_rows_nil (rs : list MergedRow) :
  frame_rows (format_stats_of fsqrt rs) = []
  <-> forall r, In r rs -> format_type r = None.
Proof.
  unfold format_stats_of. cbn [frame_rows]. split.
  - intros H r Hr. destruct (format_type r) as [k|] eqn:E; [|reflexivity].
    exfalso.
    assert (Hk : In k (group_keys String.eqb String.leb format_type rs))
      by (apply In_group_keys; [apply String.eqb_eq|eauto]).
    rewrite <- (groupby_keys String.eqb String.leb) in Hk.
    apply map_eq_nil in H. rewrite H in Hk. contradiction.
  - intros H.
    destruct (groupby String.eqb String.leb format_type rs)
      as [|g l] eqn:E; [reflexivity|].
    exfalso.
    assert (Hk : In (fst g)
                    (group_keys String.eqb String.leb format_type rs)).
    { rewrite <- (groupby_keys String.eqb String.leb), E. now left. }
    apply In_group_keys in Hk; [|apply String.eqb_eq].
    destruct Hk as [r [Hr Hk]]. rewrite (H r Hr) in Hk. discriminate.
Qed.

Lemma niche_rows_nil (rs : list MergedRow) :
  frame_rows (niche_stats_of fsqrt rs) = []
  <-> forall r, In r rs -> niche r = None.
Proof.
  unfold niche_stats_of. cbn [frame_rows]. split.
  - intros H r Hr. destruct (niche r) as [k|] eqn:E; [|reflexivity].
    exfalso.
    assert (Hk : In k (group_keys String.eqb String.leb niche rs))
      by (apply In_group_keys; [apply String.eqb_eq|eauto]).
    rewrite <- (groupby_keys String.eqb String.leb) in Hk.
    apply map_eq_nil in H. rewrite H in Hk. contradiction.
  - intros H.
    destruct (groupby String.eqb String.leb niche rs)
      as [|g l] eqn:E; [reflexivity|].
    exfalso.
    assert (Hk : In (fst g) (group_keys String.eqb String.leb niche rs)).
    { rewrite <- (groupby_keys String.eqb String.leb), E. now left. }
    apply In_group_keys in Hk; [|apply String.eqb_eq].
    destruct Hk as [r [Hr Hk]]. rewrite (H r Hr) in Hk. discriminate.
Qed.

Lemma report_raise_format (s : ShortformAnalyzer) (e : exn) :
  idxmax (column_series 8 (format_stats_of fsqrt (rows (merged s))))
  = Raise e ->
  generate_insights_report fsqrt s = (Raise e, s).
Proof.
  intros Hf.
  unfold generate_insights_report, format_performance_analysis.
  unfold bind, lift, ret, get_merged. cbn [fst snd].
  now rewrite frame_col_format, Hf.
Qed.

Lemma report_raise_niche (s : ShortformAnalyzer) (l : label) (e : exn) :
  idxmax (column_series 8 (format_stats_of fsqrt (rows (merged s))))
  = Ok l ->
  idxmax (column_series 5 (niche_stats_of fsqrt (rows (merged s))))
  = Raise e ->
  generate_insights_report fsqrt s = (Raise e, s).
Proof.
  intros Hf Hn.
  unfold generate_insights_report, format_performance_analysis,
    creator_performance_ranking, niche_analysis.
  unfold bind, lift, ret, get_merged, get_self. cbn [fst snd].
  now rewrite frame_col_format, Hf, frame_col_niche, Hn.
Qed.

Lemma duration_idxmax (coded : list (MergedRow * option nat)) :
  exists l,
    idxmax (column_series 1
              (duration_stats_of fsqrt observed_default coded)) = Ok l
    /\ (l = LNaN \/ In l (map LStr duration_labels)).
Proof.
  destruct (idxmax_nonempty
              (column_series 1
                 (duration_stats_of fsqrt observed_default coded)))
    as [l [E Hl]]; [discriminate|].
  exists l. split; [exact E|].
  now rewrite column_series_index, duration_stats_index in Hl.
Qed.

Lemma format_label_present (rs : list MergedRow) (l : label) :
  In l (index (format_stats_of fsqrt rs)) ->
  exists k r, l = LStr k /\ In r rs /\ format_type r = Some k.
Proof.
  unfold index, format_stats_of. cbn [frame_rows].
  rewrite map_map. cbn [fst]. intros H.
  apply in_map_iff in H. destruct H as [g [<- Hg]].
  assert (Hk : In (fst g) (group_keys String.eqb String.leb format_type rs)).
  { rewrite <- (groupby_keys String.eqb String.leb). now apply in_map. }
  apply In_group_keys in Hk; [|apply String.eqb_eq].
  destruct Hk as [r [Hr Hk]]. eauto.
Qed.

Lemma niche_label_present (rs : list MergedRow) (l : label) :
  In l (index (niche_stats_of fsqrt rs)) ->
  exists k r, l = LStr k /\ In r rs /\ niche r = Some k.
Proof.
  unfold index, niche_stats_of. cbn [frame_rows].
  rewrite map_map. cbn [fst]. intros H.
  apply in_map_iff in H. destruct H as [g [<- Hg]].
  assert (Hk : In (fst g) (group_keys String.eqb String.leb niche rs)).
  { rewrite <- (groupby_keys String.eqb String.leb). now apply in_map. }
  apply In_group_keys in Hk; [|apply String.eqb_eq].
  destruct Hk as [r [Hr Hk]]. eauto.
Qed.

(** X7: when some merged row has a format_type and some merged row has
    a niche, the report returns its five sentences, in the order
    format, creator, niche, duration, correlation, and leaves the
    analyzer as [duration_analysis] leaves it.  The format and the
    niche it names are those of some merged row, or the text nan when
    every mean is NaN. *)
Theorem report_returns_five_sentences
        (s : ShortformAnalyzer)
        (Hformat : exists r, In r (rows (merged s))
                             /\ format_type r <> None)
        (Hniche : exists r, In r (rows (merged s)) /\ niche r <> None) :
  exists best_format first_creator best_niche optimal_duration corr1 corr2
         has_creator,
    generate_insights_report fsqrt s
    = (Ok (report_sentences best_format first_creator best_niche
             optimal_duration corr1 corr2 has_creator),
       snd (duration_analysis fsqrt s))
    /\ (best_format = "nan"%string
        \/ exists r, In r (rows (merged s))
                     /\ format_type r = Some best_format)
    /\ (best_niche = "nan"%string
        \/ exists r, In r (rows (merged s)) /\ niche r = Some best_niche).
Proof.
  destruct (idxmax_nonempty
              (column_series 8 (format_stats_of fsqrt (rows (merged s)))))
    as [bf [Ef Hbf]].
  { rewrite column_series_nil, format_rows_nil. intros H.
    destruct Hformat as [r [Hr Hne]]. apply Hne. now apply H. }
  destruct (idxmax_nonempty
              (column_series 5 (niche_stats_of fsqrt (rows (merged s)))))
    as [bn [En Hbn]].
  { rewrite column_series_nil, niche_rows_nil. intros H.
    destruct Hniche as [r [Hr Hne]]. apply Hne. now apply H. }
  pose proof (report_eval fsqrt s bf bn Ef En) as Hrun. cbv zeta in Hrun.
  destruct (duration_idxmax
              (combine (rows (merged s))
                       (duration_codes (rows (merged s)))))
    as [od [Ed _]].
  rewrite Ed in Hrun.
  do 7 eexists. split; [exact Hrun|]. split.
  - destruct Hbf as [->|Hbf]; [now left|right].
    rewrite column_series_index in Hbf.
    apply format_label_present in Hbf.
    destruct Hbf as (k & r & -> & Hr & Hk). eauto.
  - destruct Hbn as [->|Hbn]; [now left|right].
    rewrite column_series_index in Hbn.
    apply niche_label_present in Hbn.
    destruct Hbn as (k & r & -> & Hr & Hk). eauto.
Qed.

(** X8: the report raises exactly when no merged row has a format_type
    or no merged row has a niche (in particular on an empty table, or
    when no video matches a creator); the exception is then the
    ValueError of the arg-max over an empty aggregate, and the analyzer
    is left unchanged. *)
Theorem report_raises_iff_no_group (s : ShortformAnalyzer) :
  ((exists e, fst (generate_insights_report fsqrt s) = Raise e)
   <-> (forall r, In r (rows (merged s)) -> format_type r = None)
       \/ (forall r, In r (rows (merged s)) -> niche r = None))
  /\ (forall e,
         fst (generate_insights_report fsqrt s) = Raise e ->
         generate_insights_report fsqrt s
         = (Raise (ValueError "attempt to get argmax of an empty sequence"),
            s)).
Proof.
  assert (Hcases :
            (exists e,
                (idxmax (column_series 8
                           (format_stats_of fsqrt (rows (merged s))))
                 = Raise e
                 \/ idxmax (column_series 5
                              (niche_stats_of fsqrt (rows (merged s))))
                    = Raise e)
                /\ generate_insights_report fsqrt s = (Raise e, s))
            \/ (exists ins s',
                   generate_insights_report fsqrt s = (Ok ins, s')
                   /\ frame_rows (format_stats_of fsqrt (rows (merged s)))
                      <> []
                   /\ frame_rows (niche_stats_of fsqrt (rows (merged s)))
                      <> [])).
  { destruct (idxmax (column_series 8
                        (format_stats_of fsqrt (rows (merged s)))))
      as [bf|e] eqn:Ef.
    2:{ left. exists e. split; [now left|].
        now apply report_raise_format. }
    destruct (idxmax (column_series 5
                        (niche_stats_of fsqrt (rows (merged s)))))
      as [bn|e] eqn:En.
    2:{ left. exists e. split; [now right|].
        now apply report_raise_niche with bf. }
    right.
    pose proof (report_eval fsqrt s bf bn Ef En) as Hrun. cbv zeta in Hrun.
    destruct (duration_idxmax
                (combine (rows (merged s))
                         (duration_codes (rows (merged s)))))
      as [od [Ed _]].
    rewrite Ed in Hrun. do 2 eexists. split; [exact Hrun|]. split.
    - intros E. apply (column_series_nil 8) in E. rewrite E in Ef.
      discriminate.
    - intros E. apply (column_series_nil 5) in E. rewrite E in En.
      discriminate. }
  split.
  - split.
    + intros [e He].
      destruct Hcases as [[e' [[Hr|Hr] Hrun]]|(ins & s' & Hrun & _)].
      * left. apply idxmax_raise in Hr. destruct Hr as [Hr _].
        now apply format_rows_nil, (column_series_nil 8).
      * right. apply idxmax_raise in Hr. destruct Hr as [Hr _].
        now apply niche_rows_nil, (column_series_nil 5).
      * rewrite Hrun in He. discriminate.
    + intros H.
      destruct Hcases as [[e' [_ Hrun]]|(ins & s' & _ & Hf & Hn)].
      * exists e'. now rewrite Hrun.
      * exfalso. destruct H as [H|H].
        -- now apply Hf, format_rows_nil.
        -- now apply Hn, niche_rows_nil.
  - intros e He.
    destruct Hcases as [[e' [[Hr|Hr] Hrun]]|(ins & s' & Hrun & _)].
    + apply idxmax_raise in Hr. destruct Hr as [_ ->]. exact Hrun.
    + apply idxmax_raise in Hr. destruct Hr as [_ ->]. exact Hrun.
    + rewrite Hrun in He. discriminate.
Qed.

(** X9: the two last fallback sentences are never produced: whenever the
    report returns, it has exactly five sentences, the fourth names a
    duration bucket (or nan) as the optimal duration and the fifth names
    a strongest correlation, because the duration aggregate always has
    its five rows and the correlation matrix its 144 entries. *)
Theorem report_never_uses_last_fallbacks
        (s : ShortformAnalyzer) (insights : list string)
        (Hreturns : fst (generate_insights_report fsqrt s) = Ok insights) :
  length insights = 5%nat
  /\ (exists optimal_duration,
         nth 3 insights EmptyString
         = (" **Optimal Duration**: " ++ optimal_duration
              ++ " videos perform best")%string
         /\ (optimal_duration = "nan"%string
             \/ In optimal_duration duration_labels))
  /\ (exists corr1 corr2,
         nth 4 insights EmptyString
         = (" **Strongest Correlation**: " ++ corr1 ++ " and "
              ++ corr2)%string).
Proof.
  destruct (idxmax (column_series 8
                      (format_stats_of fsqrt (rows (merged s)))))
    as [bf|e] eqn:Ef.
  2:{ rewrite (report_raise_format s e Ef) in Hreturns. discriminate. }
  destruct (idxmax (column_series 5
                      (niche_stats_of fsqrt (rows (merged s)))))
    as [bn|e] eqn:En.
  2:{ rewrite (report_raise_niche s bf e Ef En) in Hreturns.
      discriminate. }
  pose proof (report_eval fsqrt s bf bn Ef En) as Hrun. cbv zeta in Hrun.
  destruct (duration_idxmax
              (combine (rows (merged s))
                       (duration_codes (rows (merged s)))))
    as [od [Ed Hod]].
  rewrite Ed in Hrun. rewrite Hrun in Hreturns. cbn [fst] in Hreturns.
  inversion Hreturns; subst insights; clear Hreturns.
  split; [reflexivity|]. split.
  - exists (py_str od). split; [reflexivity|].
    destruct Hod as [->|Hod]; [now left|right].
    apply in_map_iff in Hod. destruct Hod as [k [<- Hk]]. exact Hk.
  - do 2 eexists. reflexivity.
Qed.
End ReportOutcome.

Lemma report_returns_five_sentences_witness :
  exists insights s',
    generate_insights_report Qsqrt (init scenario_videos scenario_creators [])
    = (Ok insights, s')
    /\ length insights = 5%nat.
Proof.
  destruct (report_returns_five_sentences Qsqrt
              (init scenario_videos scenario_creators []))
    as (bf & fc & bn & od & c1 & c2 & hc & Hrun & _).
  - exists (prepare_row true (video "v1" "c1" "A" 10 100 10 0 0, Some Ann)).
    split; [vm_compute; auto|discriminate].
  - exists (prepare_row true (video "v1" "c1" "A" 10 100 10 0 0, Some Ann)).
    split; [vm_compute; auto|discriminate].
  - do 2 eexists. split; [exact Hrun|reflexivity].
Defined.

Lemma report_never_uses_last_fallbacks_witness :
  exists insights,
    fst (generate_insights_report Qsqrt
           (init scenario_videos scenario_creators [])) = Ok insights
    /\ length insights = 5%nat.
Proof.
  eexists. split; [vm_compute; reflexivity|].
  refine (proj1 (report_never_uses_last_fallbacks Qsqrt
                   (init scenario_videos scenario_creators []) _ _)).
  vm_compute. reflexivity.
Defined.

(** ** Groups partition the keyed rows *)

Section PartitionFacts.
Context {K R : Type}.
Variable eqb : K -> K -> bool.
Hypothesis eqb_eq : forall x y, eqb x y = true <-> x = y.

Lemma count_in_nodup (ks : list K) (k' : K) :
  NoDup ks ->
  list_sum (map (fun k => if eqb k k' then 1 else 0)%nat ks)
  = if existsb (fun k => eqb k k') ks then 1%nat else 0%nat.
Proof.
  induction 1 as [|k ks Hnotin Hnd IH]; [reflexivity|].
  change (list_sum (map (fun k0 => if eqb k0 k' then 1 else 0)%nat
                        (k :: ks)))
    with ((if eqb k k' then 1 else 0)
          + list_sum (map (fun k0 => if eqb k0 k' then 1 else 0) ks))%nat.
  cbn [existsb]. rewrite IH.
  destruct (eqb k k') eqn:E; cbn [orb]; [|reflexivity].
  apply eqb_eq in E. subst k'.
  destruct (existsb (fun k0 => eqb k0 k) ks) eqn:Ex; [|reflexivity].
  exfalso. apply existsb_exists in Ex. destruct Ex as [x [Hx Ex]].
  apply eqb_eq in Ex. now subst x.
Qed.

Lemma list_sum_zeros {A : Type} (l : list A) :
  list_sum (map (fun _ => 0%nat) l) = 0%nat.
Proof.
  induction l as [|a l IH]; [reflexivity|].
  change (list_sum (map (fun _ : A => 0%nat) (a :: l)))
    with (0 + list_sum (map (fun _ : A => 0%nat) l))%nat.
  now rewrite IH.
Qed.

Lemma list_sum_map_add {A : Type} (f g : A -> nat) (l : list A) :
  list_sum (map (fun a => f a + g a)%nat l)
  = (list_sum (map f l) + list_sum (map g l))%nat.
Proof.
  induction l as [|a l IH]; [reflexivity|].
  change (list_sum (map (fun a0 => f a0 + g a0)%nat (a :: l)))
    with ((f a + g a) + list_sum (map (fun a0 => f a0 + g a0) l))%nat.
  change (list_sum (map f (a :: l))) with (f a + list_sum (map f l))%nat.
  change (list_sum (map g (a :: l))) with (g a + list_sum (map g l))%nat.
  lia.
Qed.

(** Over keys without repetition, the groups' sizes add up to the
    number of rows whose key is among them. *)
Lemma partition_count (key : R -> option K) (ks : list K) (rs : list R) :
  NoDup ks ->
  list_sum (map (fun k => length (filter (has_key eqb key k) rs)) ks)
  = length (filter (fun r => match key r with
                             | Some k' => existsb (fun k => eqb k k') ks
                             | None => false
                             end) rs).
Proof.
  intros Hnd. induction rs as [|r rs IH].
  - cbn [filter length]. apply list_sum_zeros.
  - assert (E : forall k,
               length (filter (has_key eqb key k) (r :: rs))
               = ((if has_key eqb key k r then 1 else 0)
                  + length (filter (has_key eqb key k) rs))%nat)
      by (intros k; cbn [filter]; destruct (has_key eqb key k r); reflexivity).
    rewrite (map_ext _ _ E), list_sum_map_add, IH.
    cbn [filter]. unfold has_key.
    destruct (key r) as [k'|].
    + rewrite count_in_nodup by exact Hnd.
      destruct (existsb (fun k => eqb k k') ks); reflexivity.
    + rewrite list_sum_zeros. reflexivity.
Qed.
End PartitionFacts.

Lemma groupby_sizes {K R : Type} (eqb leb : K -> K -> bool)
      (eqb_eq : forall x y, eqb x y = true <-> x = y)
      (key : R -> option K) (rs : list R) :
  list_sum (group_sizes (groupby eqb leb key rs)) = keyed_rows key rs.
Proof.
  unfold group_sizes, groupby, keyed_rows. rewrite map_map. cbn [snd].
  change (fun k => length (group_rows eqb key rs k))
    with (fun k => length (filter (has_key eqb key k) rs)).
  rewrite (partition_count eqb eqb_eq)
    by (apply NoDup_group_keys, eqb_eq).
  f_equal. apply filter_ext_in. intros r Hr.
  destruct (key r) as [k|] eqn:E; [|reflexivity]. cbn.
  apply existsb_exists. exists k. split; [|now apply eqb_eq].
  apply In_group_keys; [exact eqb_eq|eauto].
Qed.

Lemma searchsorted_left_le (bins : list Q) (q : Q) :
  (searchsorted_left bins q <= length bins)%nat.
Proof.
  induction bins as [|b bins IH]; cbn; [lia|].
  destruct (Qle_bool q b); lia.
Qed.

Lemma cut_code_lt (bins : list Q) (x : fnum) (c : nat) :
  cut bins x = Some c -> (c < length bins - 1)%nat.
Proof.
  destruct x as [q| | |]; cbn; try discriminate.
  pose proof (searchsorted_left_le bins q) as Hle.
  destruct (Nat.eqb_spec (searchsorted_left bins q) 0); cbn; [discriminate|].
  destruct (Nat.eqb_spec (searchsorted_left bins q) (length bins)); cbn;
    [discriminate|].
  intros H. inversion H. lia.
Qed.

Lemma filter_combine_map_length {A B : Type} (f : A -> B) (p : B -> bool)
      (l : list A) :
  length (filter (fun x => p (snd x)) (combine l (map f l)))
  = length (filter (fun a => p (f a)) l).
Proof.
  induction l as [|a l IH]; [reflexivity|].
  cbn [map combine filter snd]. destruct (p (f a)); cbn [length]; now rewrite IH.
Qed.

(** X10: each grouping counts every keyed row once: the sizes of the
    groups by format_type, by niche and by (creator_name, niche) add up
    to the number of merged rows whose key is not null, and the sizes of
    the five duration groups add up to the number of rows whose duration
    lies in a bin.  Rows with a null key or without a bin are in no
    group. *)
Theorem groups_partition_keyed_rows (rs : list MergedRow) :
  list_sum (group_sizes (groupby String.eqb String.leb format_type rs))
  = keyed_rows format_type rs
  /\ list_sum (group_sizes (groupby String.eqb String.leb niche rs))
     = keyed_rows niche rs
  /\ list_sum (group_sizes (groupby pair_eqb pair_leb creator_key rs))
     = keyed_rows creator_key rs
  /\ list_sum (group_sizes
                 (groupby_categorical observed_default
                    (length duration_labels) snd
                    (combine rs (duration_codes rs))))
     = keyed_rows (fun r => cut duration_bins (duration_sec r)) rs.
Proof.
  split; [apply groupby_sizes, String.eqb_eq|].
  split; [apply groupby_sizes, String.eqb_eq|].
  split; [apply groupby_sizes, pair_eqb_eq|].
  unfold group_sizes, groupby_categorical, observed_default, keyed_rows.
  rewrite map_map. cbn [snd].
  change (fun c => length (filter (fun r : MergedRow * option nat =>
                                     code_is c (snd r))
                                  (combine rs (duration_codes rs))))
    with (fun c => length (filter (has_key Nat.eqb
                                     (snd (A := MergedRow) (B := option nat)) c)
                                  (combine rs (duration_codes rs)))).
  rewrite (partition_count Nat.eqb Nat.eqb_eq) by apply seq_NoDup.
  unfold duration_codes.
  rewrite <- (filter_combine_map_length
                (fun r => cut duration_bins (duration_sec r))
                (fun o => negb (is_none o)) rs).
  f_equal. apply filter_ext_in. intros [r o] Hin.
  apply In_combine_map in Hin. cbn [snd]. subst o.
  destruct (cut duration_bins (duration_sec r)) as [c|] eqn:E;
    [|reflexivity].
  cbn [negb is_none]. apply existsb_exists.
  exists c. split; [|apply Nat.eqb_refl].
  apply cut_code_lt in E. apply in_seq.
  change (c < 5)%nat in E. change (0 <= c < 0 + 5)%nat. lia.
Qed.

(** ** Clustering that succeeds *)

Lemma filter_all {A : Type} (p : A -> bool) (l : list A) :
  (forall a, p a = true) -> filter p l = l.
Proof.
  intros H. induction l as [|a l IH]; cbn; [reflexivity|].
  now rewrite H, IH.
Qed.

Lemma cluster_frame_col (labelled : list (MergedRow * Z)) :
  frame_col (cluster_analysis_of labelled) (LStr "count")
  = Ok (column_series 5 (cluster_analysis_of labelled)).
Proof. reflexivity. Qed.

Lemma cluster_counts (labelled : list (MergedRow * Z)) :
  map snd (column_series 5 (cluster_analysis_of labelled))
  = map (fun n => Fin (Qnat n))
        (group_sizes (groupby Z.eqb Z.leb
                              (fun r : MergedRow * Z => Some (snd r))
                              labelled)).
Proof.
  unfold column_series, cluster_analysis_of, group_sizes.
  cbn [frame_rows]. rewrite !map_map. apply map_ext. intros g. reflexivity.
Qed.

Lemma cluster_index (labelled : list (MergedRow * Z)) (z : Z) :
  In (LInt z) (index (cluster_analysis_of labelled))
  <-> In z (map snd labelled).
Proof.
  unfold index, cluster_analysis_of. cbn [frame_rows].
  rewrite map_map. cbn [fst].
  rewrite in_map_iff. split.
  - intros [g [E Hg]]. inversion E; subst z.
    assert (Hk : In (fst g) (group_keys Z.eqb Z.leb
                               (fun r : MergedRow * Z => Some (snd r))
                               labelled)).
    { rewrite <- (groupby_keys Z.eqb Z.leb). now apply in_map. }
    apply In_group_keys in Hk; [|apply Z.eqb_eq].
    destruct Hk as [r [Hr Hk]]. inversion Hk. now apply in_map.
  - intros Hz. apply in_map_iff in Hz. destruct Hz as [r [<- Hr]].
    assert (Hk : In (snd r) (group_keys Z.eqb Z.leb
                               (fun r : MergedRow * Z => Some (snd r))
                               labelled))
      by (apply In_group_keys; [apply Z.eqb_eq|eauto]).
    rewrite <- (groupby_keys Z.eqb Z.leb) in Hk.
    apply in_map_iff in Hk. destruct Hk as [g [E Hg]].
    exists g. split; [now rewrite E|exact Hg].
Qed.

(** X11: on a table with rows and finite features, a clustering call with
    1 <= k <= number of rows, for which k-means returns one label per
    row, returns the cluster summary and writes exactly those labels as
    the cluster column, keeping the rows and the duration_bin column.
    The summary has one row per label that occurs, and its count column
    adds up to the number of rows of the table. *)
Theorem clustering_counts_every_row
        (fsqrt : Q -> Q) (kmeans_labels : Z -> list (list fnum) -> list Z)
        (k : Z) (s : ShortformAnalyzer)
        (Hrows : rows (merged s) <> [])
        (Hfin : features_finite (rows (merged s)))
        (Hk : (1 <= k <= Z.of_nat (length (rows (merged s))))%Z)
        (Hlabels : forall X, length (kmeans_labels k X) = length X) :
  exists f labels counts series,
    performance_clustering fsqrt kmeans_labels k s
    = (Ok f,
       {| videos := videos s;
          creators := creators s;
          platforms := platforms s;
          merged := {| rows := rows (merged s);
                       duration_bin := duration_bin (merged s);
                       cluster := Some labels |} |})
    /\ length labels = length (rows (merged s))
    /\ (forall z, In (LInt z) (index f) <-> In z labels)
    /\ frame_col f (LStr "count") = Ok series
    /\ map snd series = map (fun n => Fin (Qnat n)) counts
    /\ list_sum counts = length (rows (merged s)).
Proof.
  destruct (scaler_finite fsqrt (rows (merged s)) Hrows Hfin)
    as (X & HX & Hlen & Hnan).
  set (labels := kmeans_labels k X).
  assert (Hl : length labels = length (rows (merged s)))
    by (unfold labels; now rewrite Hlabels).
  exists (cluster_analysis_of (combine (rows (merged s)) labels)), labels.
  exists (group_sizes (groupby Z.eqb Z.leb
                         (fun r : MergedRow * Z => Some (snd r))
                         (combine (rows (merged s)) labels))).
  exists (column_series 5
            (cluster_analysis_of (combine (rows (merged s)) labels))).
  split.
  { unfold performance_clustering, bind, lift, get_merged. cbn [fst snd].
    rewrite HX. unfold kmeans_fit_predict.
    destruct (Z.ltb_spec k 1) as [Hlt|_]; [lia|].
    rewrite Hnan, Hlen.
    destruct (Z.ltb_spec (Z.of_nat (length (rows (merged s)))) k); [lia|].
    fold labels. unfold assign_cluster, bind, get_merged, set_merged.
    cbn [fst snd]. rewrite Hl, Nat.eqb_refl. reflexivity. }
  split; [exact Hl|]. split.
  { intros z. rewrite cluster_index.
    assert (E : map snd (combine (rows (merged s)) labels) = labels).
    { clear -Hl. revert Hl. generalize (rows (merged s)) as rs.
      induction labels as [|z labels IH]; intros [|r rs] H;
        try discriminate; [reflexivity|].
      cbn. f_equal. apply IH. cbn in H. lia. }
    now rewrite E. }
  split; [apply cluster_frame_col|].
  split; [apply cluster_counts|].
  rewrite (groupby_sizes Z.eqb Z.leb Z.eqb_eq).
  unfold keyed_rows.
  rewrite filter_all by reflexivity.
  rewrite length_combine. lia.
Qed.

Lemma clustering_counts_every_row_witness :
  exists f s' labels,
    performance_clustering Qsqrt one_cluster 2
      (init twin_videos scenario_creators []) = (Ok f, s')
    /\ cluster (merged s') = Some labels
    /\ length labels = 2%nat.
Proof.
  destruct (clustering_counts_every_row Qsqrt one_cluster 2
              (init twin_videos scenario_creators []))
    as (f & labels & counts & series & Hrun & Hlen & _).
  - vm_compute. discriminate.
  - intros r f Hr Hf. vm_compute in Hr, Hf.
    repeat (destruct Hr as [<-|Hr]; [|]);
      repeat (destruct Hf as [<-|Hf]; try reflexivity); contradiction.
  - vm_compute. split; discriminate.
  - intros X. unfold one_cluster. apply length_map.
  - do 3 eexists. split; [exact Hrun|]. split; [reflexivity|exact Hlen].
Defined.



(** ** Ranking: rejected metrics, size of the creator ranking *)





Lemma flat_map_length_one {A B : Type} (f : A -> list B) (l : list A) :
  (forall a, In a l -> length (f a) = 1%nat) ->
  length (flat_map f l) = length l.
Proof.
  intros Hf. induction l as [|a l IH]; [reflexivity|].
  change (flat_map f (a :: l)) with (f a ++ flat_map f l).
  rewrite length_app, (Hf a (or_introl eq_refl)), IH; [reflexivity|].
  intros x Hx. apply Hf. now right.
Qed.

Lemma filter_unique_name (cs : list Creator.t) (name : string) :
  NoDup (dropna_keys (map Creator.creator_name cs)) ->
  (length (filter (fun c => match Creator.creator_name c with
                            | Some n => String.eqb n name
                            | None => false
                            end) cs) <= 1)%nat.
Proof.
  induction cs as [|c cs IH]; [cbn; lia|].
  cbn [map filter]. unfold dropna_keys. cbn [flat_map].
  fold (dropna_keys (map Creator.creator_name cs)).
  destruct (Creator.creator_name c) as [n|] eqn:En; cbn [app].
  - intros H. inversion H as [|? ? Hnotin Hnd]; subst.
    destruct (String.eqb_spec n name) as [E|E]; [|now apply IH].
    cbn [length].
    assert (F : filter (fun c0 => match Creator.creator_name c0 with
                                  | Some n0 => String.eqb n0 name
                                  | None => false
                                  end) cs = []).
    { destruct (filter _ cs) as [|c1 l] eqn:EF; [reflexivity|].
      exfalso. apply Hnotin.
      assert (Hin : In c1 (filter (fun c0 =>
                                     match Creator.creator_name c0 with
                                     | Some n0 => String.eqb n0 name
                                     | None => false
                                     end) cs))
        by (rewrite EF; now left).
      apply filter_In in Hin. destruct Hin as [Hin Heq].
      destruct (Creator.creator_name c1) as [n1|] eqn:E1; [|discriminate].
      apply String.eqb_eq in Heq. subst n1 name.
      apply (In_dropna_keys String.eqb). rewrite <- E1. now apply in_map. }
    rewrite F. cbn. lia.
  - exact IH.
Qed.

Lemma number_rows_length (l : list (list cell)) :
  length (number_rows l) = length l.
Proof.
  unfold number_rows. rewrite length_combine, length_map, length_seq. lia.
Qed.

(** X14: for top_n >= 0 the creator ranking has min(top_n, m) rows, where
    m is the number of rows of the follower merge; m is at least the
    number of (creator_name, niche) groups, and equals it when no creator
    name occurs twice in the creators table (a repeated name repeats the
    rows of its groups). *)
Theorem creator_ranking_size
        (fsqrt : Q -> Q) (top_n : Z) (s : ShortformAnalyzer)
        (Hn : (0 <= top_n)%Z) :
  let groups := creator_stats_of fsqrt (rows (merged s)) in
  let merged_rows := merge_followers (creators s) groups in
  exists f,
    creator_performance_ranking fsqrt top_n s = (Ok f, s)
    /\ frame_len f = Nat.min (Z.to_nat top_n) (length merged_rows)
    /\ (length groups <= length merged_rows)%nat
    /\ (NoDup (dropna_keys (map Creator.creator_name (creators s))) ->
        length merged_rows = length groups).
Proof.
  intros groups merged_rows. eexists. split; [reflexivity|]. split; [|split].
  - unfold frame_len, creator_ranking_of. cbn [frame_rows]. fold groups.
    fold merged_rows. unfold head.
    destruct (Z.leb_spec 0 top_n) as [_|Hlt]; [|lia].
    rewrite length_firstn.
    rewrite (Permutation_length (sort_values_desc_perm _ _)).
    now rewrite number_rows_length.
  - unfold merged_rows, merge_followers. apply flat_map_length_ge.
    intros g. destruct (filter _ (creators s)); discriminate.
  - intros Hnd. unfold merged_rows, merge_followers.
    apply flat_map_length_one. intros g _.
    pose proof (filter_unique_name (creators s) (fst (fst g)) Hnd) as Hle.
    destruct (filter _ (creators s)) as [|c0 [|c1 l]]; cbn in *;
      try reflexivity. lia.
Qed.

Lemma creator_ranking_size_witness :
  exists f,
    creator_performance_ranking Qsqrt 5
      (init scenario_videos scenario_creators [])
    = (Ok f, init scenario_videos scenario_creators [])
    /\ frame_len f = 1%nat.
Proof.
  destruct (creator_ranking_size Qsqrt 5
              (init scenario_videos scenario_creators []))
    as (f & Hrun & Hlen & _).
  - discriminate.
  - exists f. split; [exact Hrun|]. rewrite Hlen. vm_compute. reflexivity.
Defined.

(** ** The analyses read the joined rows and the creators only *)

Section ReadSet.
Variable fsqrt : Q -> Q.
Variable kmeans_labels : Z -> list (list fnum) -> list Z.

Lemma tables_read_by_analyses (s s' : ShortformAnalyzer) :
  rows (merged s') = rows (merged s) ->
  creators s' = creators s ->
  fst (format_performance_analysis fsqrt s')
  = fst (format_performance_analysis fsqrt s)
  /\ (forall top_n,
         fst (creator_performance_ranking fsqrt top_n s')
         = fst (creator_performance_ranking fsqrt top_n s))
  /\ fst (niche_analysis fsqrt s') = fst (niche_analysis fsqrt s)
  /\ fst (duration_analysis fsqrt s') = fst (duration_analysis fsqrt s)
  /\ fst (correlation_analysis fsqrt s') = fst (correlation_analysis fsqrt s)
  /\ (forall k,
         fst (performance_clustering fsqrt kmeans_labels k s')
         = fst (performance_clustering fsqrt kmeans_labels k s))
  /\ (forall metric top_n,
         numeric_col metric <> None ->
         fst (top_performers_analysis metric top_n s')
         = fst (top_performers_analysis metric top_n s))
  /\ fst (generate_insights_report fsqrt s')
     = fst (generate_insights_report fsqrt s).
Proof.
  destruct s as [v c p [r d cl]], s' as [v' c' p' [r' d' cl']].
  cbn [rows merged creators]. intros -> ->.
  repeat match goal with |- _ /\ _ => split end; try reflexivity.
  - intros k. unfold performance_clustering, bind, lift, ret, get_merged,
      assign_cluster, set_merged. cbn [fst snd merged rows].
    destruct (scaler_fit_transform _ _) as [sc|e]; [|reflexivity].
    destruct (kmeans_fit_predict _ _ _) as [labels|e]; [|reflexivity].
    unfold bind, lift, get_merged. cbn [fst snd merged rows].
    destruct (Nat.eqb (length labels) (length r)); reflexivity.
  - intros metric top_n Hnum.
    unfold top_performers_analysis, bind, lift, ret, get_merged,
      column_values. cbn [fst snd merged rows].
    destruct (numeric_col metric); [reflexivity|congruence].
  - destruct (idxmax (column_series 8 (format_stats_of fsqrt r)))
      as [best_format|e] eqn:Hf.
    2:{ rewrite !(report_raise_format fsqrt _ e) by exact Hf.
        reflexivity. }
    destruct (idxmax (column_series 5 (niche_stats_of fsqrt r)))
      as [best_niche|e] eqn:Hn.
    2:{ rewrite !(report_raise_niche fsqrt _ best_format e)
          by (cbn [rows merged]; assumption).
        reflexivity. }
    rewrite !(report_eval fsqrt _ best_format best_niche)
      by (cbn [rows merged]; assumption).
    reflexivity.
Qed.
End ReadSet.

(** X15: the results of the analyses do not depend on which of
    [duration_analysis] and [performance_clustering] ran before: after
    either of them, or both, every analysis (the video ranking for a
    numeric base column) returns what it returns on the analyzer itself;
    and a second [duration_analysis] leaves the analyzer as the first
    one left it. *)
Theorem analyses_independent_of_call_order
        (fsqrt : Q -> Q) (kmeans_labels : Z -> list (list fnum) -> list Z)
        (k : Z) (s : ShortformAnalyzer) :
  let after_duration := snd (duration_analysis fsqrt s) in
  let after_cluster := snd (performance_clustering fsqrt kmeans_labels k s) in
  let after_both :=
    snd (performance_clustering fsqrt kmeans_labels k after_duration) in
  (forall s',
      s' = after_duration \/ s' = after_cluster \/ s' = after_both ->
      fst (format_performance_analysis fsqrt s')
      = fst (format_performance_analysis fsqrt s)
      /\ (forall top_n,
             fst (creator_performance_ranking fsqrt top_n s')
             = fst (creator_performance_ranking fsqrt top_n s))
      /\ fst (niche_analysis fsqrt s') = fst (niche_analysis fsqrt s)
      /\ fst (duration_analysis fsqrt s') = fst (duration_analysis fsqrt s)
      /\ fst (correlation_analysis fsqrt s')
         = fst (correlation_analysis fsqrt s)
      /\ (forall k',
             fst (performance_clustering fsqrt kmeans_labels k' s')
             = fst (performance_clustering fsqrt kmeans_labels k' s))
      /\ (forall metric top_n,
             numeric_col metric <> None ->
             fst (top_performers_analysis metric top_n s')
             = fst (top_performers_analysis metric top_n s))
      /\ fst (generate_insights_report fsqrt s')
         = fst (generate_insights_report fsqrt s))
  /\ snd (duration_analysis fsqrt after_duration) = after_duration.
Proof.
  intros after_duration after_cluster after_both. split.
  - intros s' Hs'.
    apply tables_read_by_analyses.
    + destruct Hs' as [ -> | [ -> | -> ] ].
      * reflexivity.
      * apply (performance_clustering_state fsqrt kmeans_labels k s).
      * unfold after_both.
        destruct (performance_clustering_state fsqrt kmeans_labels k
                    after_duration) as (_ & _ & _ & Hr & _).
        cbv zeta in Hr. rewrite Hr. reflexivity.
    + destruct Hs' as [ -> | [ -> | -> ] ].
      * reflexivity.
      * apply (performance_clustering_state fsqrt kmeans_labels k s).
      * unfold after_both.
        destruct (performance_clustering_state fsqrt kmeans_labels k
                    after_duration) as (_ & Hc & _).
        cbv zeta in Hc. rewrite Hc. reflexivity.
  - unfold after_duration. rewrite !duration_analysis_run. reflexivity.
Qed.
